(** * Prompty-Veille: the React client [frontend/src/App.js]

    A shallow embedding of the client-side logic of the single-page
    application: the summaries filter and sort, the article selection,
    the source form, and the event handlers that talk to the REST
    backend through axios. *)

From Stdlib Require Import List ZArith NArith Bool String Ascii Lia.
From Stdlib Require Import Sorting.Sorted Sorting.Permutation.
From ExtLib Require Import Structures.Monad.
Import ListNotations.
Import MonadNotation.

Local Open Scope Z_scope.

(** ** JavaScript values *)

(** A JavaScript string is a sequence of UTF-16 code units. *)
Definition codeunit := N.
Definition jsstring := list codeunit.

(** String literals of the source, written in ASCII. *)
Definition str (s : string) : jsstring :=
  map N_of_ascii (list_ascii_of_string s).

(** [a === b] on strings. *)
Fixpoint str_eqb (a b : jsstring) : bool :=
  match a, b with
  | [], [] => true
  | x :: a', y :: b' => N.eqb x y && str_eqb a' b'
  | _, _ => false
  end.

(** A property read from a deserialized JSON object: the key may be
    absent ([undefined]), hold [null], or hold a value. *)
Inductive nullable (A : Type) : Type :=
| Undefined
| Null
| Val (a : A).
Arguments Undefined {A}.
Arguments Null {A}.
Arguments Val {A} a.


(** [a === b] where both sides are a string, [null] or [undefined]. *)
Definition strict_eq (a b : nullable jsstring) : bool :=
  match a, b with
  | Undefined, Undefined => true
  | Null, Null => true
  | Val x, Val y => str_eqb x y
  | _, _ => false
  end.

(** Truthiness of a string: every string but the empty one. *)
Definition truthy_str (s : jsstring) : bool :=
  match s with
  | [] => false
  | _ :: _ => true
  end.

(** [x || ""] for [x] a string, [null] or [undefined]. *)
Definition or_empty (x : nullable jsstring) : jsstring :=
  match x with
  | Val s => if truthy_str s then s else str ""
  | _ => str ""
  end.

(** [s || null] for [s] a string. *)
Definition or_null (s : jsstring) : nullable jsstring :=
  if truthy_str s then Val s else Null.

(** [Array.prototype.includes] on an array of strings. *)
Definition includes (l : list jsstring) (x : jsstring) : bool :=
  existsb (fun y => str_eqb y x) l.

(** ** [Array.prototype.sort]

    ECMAScript requires the sort to be stable and, for a consistent
    comparator, to return the sorted permutation; every stable sort
    gives the same array then.  The model is the stable insertion sort;
    [comparefn a b <= 0] keeps [a] before [b]. *)
Section ArraySort.
Context {A : Type}.
Variable comparefn : A -> A -> Z.

Fixpoint sort_insert (x : A) (l : list A) : list A :=
  match l with
  | [] => [x]
  | y :: l' => if comparefn x y <=? 0 then x :: y :: l'
               else y :: sort_insert x l'
  end.

Definition array_sort (l : list A) : list A :=
  fold_right sort_insert [] l.

End ArraySort.

(** ** Data model (deserialized backend entities) *)

Module Source.
Record t := mk {
  id : jsstring;
  name : jsstring;
  url : jsstring;
  category : nullable jsstring;
  tags : list jsstring;
  active : bool;
  last_checked : nullable jsstring
}.
End Source.

(** [created_at] is held as the time value of [new Date(created_at)],
    in milliseconds; the difference of two time values has the sign of
    the integer difference. *)
Module Summary.
Record t := mk {
  id : jsstring;
  title : jsstring;
  summary : jsstring;
  url : jsstring;
  source_name : jsstring;
  source_id : nullable jsstring;
  category : nullable jsstring;
  tags : nullable (list jsstring);
  created_at : Z;
  is_new : bool
}.
End Summary.

Module Article.
Record t := mk {
  id : jsstring;
  title : jsstring;
  theme : jsstring;
  content : jsstring;
  tags : nullable (list jsstring);
  sources : list jsstring;
  created_at : Z
}.
End Article.

Module Stats.
Record t := mk {
  total_sources : N;
  active_sources : N;
  total_summaries : N;
  new_summaries : N;
  total_articles : N
}.
End Stats.

(** The body returned by [POST /api/process-url]. *)
Module UrlResult.
Record t := mk {
  title : jsstring;
  url : jsstring;
  summary : jsstring
}.
End UrlResult.

(** ** Summaries: [filterSummaries] *)

(** The comparator of the "category" view. *)
Definition compareCategory (localeCompare : jsstring -> jsstring -> Z)
  (a b : Summary.t) : Z :=
  if strict_eq (Summary.category a) (Summary.category b)
  then Summary.created_at b - Summary.created_at a
  else localeCompare (or_empty (Summary.category a))
                     (or_empty (Summary.category b)).

(** The comparator of the chronological view. *)
Definition compareChronological (a b : Summary.t) : Z :=
  Summary.created_at b - Summary.created_at a.

(** The array passed to [setFilteredSummaries].  [localeCompare] is
    [String.prototype.localeCompare] of the host. *)
Definition filterSummaries (localeCompare : jsstring -> jsstring -> Z)
  (summaries : list Summary.t) (selectedCategory selectedTag view : jsstring)
  : list Summary.t :=
  let filtered := summaries in
  let filtered :=
    if negb (str_eqb selectedCategory (str "all"))
    then filter (fun s => strict_eq (Summary.category s) (Val selectedCategory)) filtered
    else filtered in
  let filtered :=
    if negb (str_eqb selectedTag (str "all"))
    then filter (fun s => match Summary.tags s with
                          | Val ts => includes ts selectedTag
                          | _ => false
                          end) filtered
    else filtered in
  if str_eqb view (str "category")
  then array_sort (compareCategory localeCompare) filtered
  else array_sort compareChronological filtered.

(** ** Summaries: [toggleSummarySelection] *)

(** The updater passed to [setSelectedForArticle]. *)
Definition toggleSummarySelection (id : jsstring) (prev : list jsstring)
  : list jsstring :=
  if includes prev id
  then filter (fun s => negb (str_eqb s id)) prev
  else prev ++ [id].

(** ** String methods used by the source form *)

(** [WhiteSpace] and [LineTerminator] code points of ECMAScript, the
    characters [String.prototype.trim] strips. *)
Definition is_white_space (c : codeunit) : bool :=
  (N.eqb c 9 || N.eqb c 10 || N.eqb c 11 || N.eqb c 12 || N.eqb c 13
   || N.eqb c 32 || N.eqb c 160 || N.eqb c 5760
   || (N.leb 8192 c && N.leb c 8202)
   || N.eqb c 8232 || N.eqb c 8233 || N.eqb c 8239 || N.eqb c 8287
   || N.eqb c 12288 || N.eqb c 65279)%N.

Fixpoint trimStart (s : jsstring) : jsstring :=
  match s with
  | [] => []
  | c :: s' => if is_white_space c then trimStart s' else s
  end.

Definition trimEnd (s : jsstring) : jsstring :=
  rev (trimStart (rev s)).

(** [String.prototype.trim]. *)
Definition trim (s : jsstring) : jsstring :=
  trimEnd (trimStart s).

(** [s.split(sep)] for a separator of one code unit: the pieces between
    the occurrences of [sep]; the empty string gives one empty piece. *)
Fixpoint split (sep : codeunit) (s : jsstring) : list jsstring :=
  match s with
  | [] => [[]]
  | c :: s' =>
      if N.eqb c sep then [] :: split sep s'
      else match split sep s' with
           | [] => [[c]]
           | p :: ps => (c :: p) :: ps
           end
  end.

(** [Array.prototype.join] on an array of strings. *)
Fixpoint join (sep : jsstring) (l : list jsstring) : jsstring :=
  match l with
  | [] => []
  | [x] => x
  | x :: l' => x ++ sep ++ join sep l'
  end.

Definition comma : codeunit := 44%N.

(** ** Requests, responses and the handler monad *)

Inductive Method := GET | POST | PUT | DELETE.

(** The bodies the client sends. *)
Inductive Body :=
| SourcePayload (name url : jsstring) (category : nullable jsstring)
                (tags : list jsstring)
| ArticlePayload (title theme : jsstring) (summary_ids : list jsstring)
| ProcessUrlPayload (url : jsstring) (save : bool).

Record HttpRequest := mkRequest {
  req_method : Method;
  req_url : jsstring;
  req_data : option Body
}.

(** The error a rejected axios promise carries. *)
Inductive Error := RequestFailed (r : HttpRequest).

(** What a handler does to the outside, in order. *)
Inductive Event :=
| PreventDefault
| StopPropagation
| Request (r : HttpRequest)
| ToastSuccess (msg : string)
| ToastError (msg : string)
| ConsoleError (msg : string) (e : Error)
| Navigate (path : jsstring).

(** The shape of [response.data] each call site expects. *)
Inductive Kind :=
| KStats | KSources | KSummaries | KStrings | KSummary | KUrlResult
| KArticles | KArticle | KIgnored.

Definition data_of (k : Kind) : Type :=
  match k with
  | KStats => Stats.t
  | KSources => list Source.t
  | KSummaries => list Summary.t
  | KStrings => list jsstring
  | KSummary => Summary.t
  | KUrlResult => UrlResult.t
  | KArticles => list Article.t
  | KArticle => Article.t
  | KIgnored => unit
  end.

(** The world around the client: the deployment constant
    [process.env.REACT_APP_BACKEND_URL], the backend, which answers a
    request after the events so far with data or rejects it ([None]),
    and the user's answer to [window.confirm]. *)
Record Env := mkEnv {
  BACKEND_URL : jsstring;
  backend : forall k : Kind, list Event -> HttpRequest -> option (data_of k);
  window_confirm : string -> bool
}.

Inductive Completion (A : Type) : Type :=
| Normal (a : A)
| Throw (e : Error).
Arguments Normal {A} a.
Arguments Throw {A} e.

(** A handler of a component with state [S]: it reads the environment,
    updates the state through the setters and appends to the trace of
    events; a [Throw] keeps the state and trace reached so far. *)
Definition Js (S A : Type) : Type :=
  Env -> S -> list Event -> Completion A * S * list Event.

Definition js_ret {S A} (a : A) : Js S A :=
  fun _ st tr => (Normal a, st, tr).

Definition js_bind {S A B} (c : Js S A) (k : A -> Js S B) : Js S B :=
  fun env st tr =>
    match c env st tr with
    | (Normal a, st', tr') => k a env st' tr'
    | (Throw e, st', tr') => (Throw e, st', tr')
    end.

#[global] Instance Monad_Js {S} : Monad (Js S) :=
  {| ret := @js_ret S; bind := @js_bind S |}.

(** The state captured by the closure of the handler. *)
Definition rendered {S} : Js S S :=
  fun _ st tr => (Normal st, st, tr).

(** A [useState] setter. *)
Definition set_state {S} (f : S -> S) : Js S unit :=
  fun _ st tr => (Normal tt, f st, tr).

Definition emit {S} (e : Event) : Js S unit :=
  fun _ st tr => (Normal tt, st, tr ++ [e]).

(** [`${BACKEND_URL}/api`]. *)
Definition API {S} : Js S jsstring :=
  fun env st tr => (Normal (BACKEND_URL env ++ str "/api"), st, tr).

(** A promise is settled by the backend when the request is issued. *)
Inductive Promise (A : Type) : Type :=
| Fulfilled (a : A)
| Rejected (e : Error).
Arguments Fulfilled {A} a.
Arguments Rejected {A} e.

Definition axios {S} (k : Kind) (r : HttpRequest) : Js S (Promise (data_of k)) :=
  fun env st tr =>
    (Normal match backend env k tr r with
            | Some d => Fulfilled d
            | None => Rejected (RequestFailed r)
            end, st, tr ++ [Request r]).

Definition axios_get {S} k (url : jsstring) : Js S (Promise (data_of k)) :=
  axios k (mkRequest GET url None).
Definition axios_post {S} k (url : jsstring) (data : option Body)
  : Js S (Promise (data_of k)) :=
  axios k (mkRequest POST url data).
Definition axios_put {S} k (url : jsstring) (data : option Body)
  : Js S (Promise (data_of k)) :=
  axios k (mkRequest PUT url data).
Definition axios_delete {S} k (url : jsstring) : Js S (Promise (data_of k)) :=
  axios k (mkRequest DELETE url None).

Definition await {S A} (p : Promise A) : Js S A :=
  fun _ st tr =>
    match p with
    | Fulfilled a => (Normal a, st, tr)
    | Rejected e => (Throw e, st, tr)
    end.

(** [Promise.all] of two and of three promises: fulfilled with all the
    values when all are fulfilled, rejected otherwise.  When several of
    the promises are rejected, it carries the error of the first in the
    array. *)
Definition Promise_all2 {A B} (p1 : Promise A) (p2 : Promise B)
  : Promise (A * B) :=
  match p1, p2 with
  | Fulfilled a, Fulfilled b => Fulfilled (a, b)
  | Rejected e, _ => Rejected e
  | _, Rejected e => Rejected e
  end.

Definition Promise_all3 {A B C} (p1 : Promise A) (p2 : Promise B)
  (p3 : Promise C) : Promise (A * B * C) :=
  match p1, p2, p3 with
  | Fulfilled a, Fulfilled b, Fulfilled c => Fulfilled (a, b, c)
  | Rejected e, _, _ => Rejected e
  | _, Rejected e, _ => Rejected e
  | _, _, Rejected e => Rejected e
  end.

(** [try { body } catch (error) { handler }]. *)
Definition try_catch {S A} (body : Js S A) (handler : Error -> Js S A) : Js S A :=
  fun env st tr =>
    match body env st tr with
    | (Normal a, st', tr') => (Normal a, st', tr')
    | (Throw e, st', tr') => handler e env st' tr'
    end.

(** [try { body } catch (error) { handler } finally { fin }]. *)
Definition try_catch_finally {S A} (body : Js S A) (handler : Error -> Js S A)
  (fin : Js S unit) : Js S A :=
  fun env st tr =>
    match try_catch body handler env st tr with
    | (c, st', tr') =>
        match fin env st' tr' with
        | (Normal _, st'', tr'') => (c, st'', tr'')
        | (Throw e, st'', tr'') => (Throw e, st'', tr'')
        end
    end.

Definition toast_success {S} (msg : string) : Js S unit := emit (ToastSuccess msg).
Definition toast_error {S} (msg : string) : Js S unit := emit (ToastError msg).
Definition console_error {S} (msg : string) (e : Error) : Js S unit :=
  emit (ConsoleError msg e).
Definition navigate {S} (path : jsstring) : Js S unit := emit (Navigate path).
Definition confirm {S} (msg : string) : Js S bool :=
  fun env st tr => (Normal (window_confirm env msg), st, tr).

Local Open Scope monad_scope.

(** ** Dashboard *)

Module Dashboard.
Record State := mkState {
  stats : option Stats.t;
  recentSummaries : list Summary.t;
  loading : bool
}.

Definition setStats (v : option Stats.t) (st : State) : State :=
  mkState v (recentSummaries st) (loading st).
Definition setRecentSummaries (v : list Summary.t) (st : State) : State :=
  mkState (stats st) v (loading st).
Definition setLoading (v : bool) (st : State) : State :=
  mkState (stats st) (recentSummaries st) v.

Definition fetchData : Js State unit :=
  try_catch_finally
    (api <- API ;;
     p1 <- axios_get KStats (api ++ str "/stats") ;;
     p2 <- axios_get KSummaries (api ++ str "/summaries?limit=6") ;;
     '(statsRes, summariesRes) <- await (Promise_all2 p1 p2) ;;
     set_state (setStats (Some statsRes)) ;;
     set_state (setRecentSummaries (firstn 6 summariesRes)))
    (fun error =>
       console_error "Error fetching dashboard data:" error ;;
       toast_error "Erreur lors du chargement des données")
    (set_state (setLoading false)).

End Dashboard.

(** ** Sources management *)

Module Sources.
Record FormData := mkFormData {
  name : jsstring;
  url : jsstring;
  category : jsstring;
  tags : jsstring
}.

Record State := mkState {
  sources : list Source.t;
  loading : bool;
  dialogOpen : bool;
  editingSource : option Source.t;
  formData : FormData
}.

Definition setSources (v : list Source.t) (st : State) : State :=
  mkState v (loading st) (dialogOpen st) (editingSource st) (formData st).
Definition setLoading (v : bool) (st : State) : State :=
  mkState (sources st) v (dialogOpen st) (editingSource st) (formData st).
Definition setDialogOpen (v : bool) (st : State) : State :=
  mkState (sources st) (loading st) v (editingSource st) (formData st).
Definition setEditingSource (v : option Source.t) (st : State) : State :=
  mkState (sources st) (loading st) (dialogOpen st) v (formData st).
Definition setFormData (v : FormData) (st : State) : State :=
  mkState (sources st) (loading st) (dialogOpen st) (editingSource st) v.

Definition emptyForm : FormData :=
  mkFormData (str "") (str "") (str "") (str "").

Definition fetchSources : Js State unit :=
  try_catch_finally
    (api <- API ;;
     p <- axios_get KSources (api ++ str "/sources") ;;
     response <- await p ;;
     set_state (setSources response))
    (fun error =>
       console_error "Error fetching sources:" error ;;
       toast_error "Erreur lors du chargement des sources")
    (set_state (setLoading false)).

(** The constant [payload] of [handleSubmit]. *)
Definition payload (formData : FormData) : Body :=
  SourcePayload
    (name formData)
    (url formData)
    (or_null (category formData))
    (if truthy_str (tags formData)
     then map trim (split comma (tags formData))
     else []).

Definition handleSubmit : Js State unit :=
  st <- rendered ;;
  emit PreventDefault ;;
  try_catch
    (api <- API ;;
     match editingSource st with
     | Some editing =>
         p <- axios_put KIgnored (api ++ str "/sources/" ++ Source.id editing)
                (Some (payload (formData st))) ;;
         _ <- await p ;;
         toast_success "Source mise à jour"
     | None =>
         p <- axios_post KIgnored (api ++ str "/sources")
                (Some (payload (formData st))) ;;
         _ <- await p ;;
         toast_success "Source ajoutée"
     end ;;
     set_state (setDialogOpen false) ;;
     set_state (setFormData emptyForm) ;;
     set_state (setEditingSource None) ;;
     fetchSources)
    (fun error =>
       console_error "Error saving source:" error ;;
       toast_error "Erreur lors de l'enregistrement").

Definition handleEdit (source : Source.t) : Js State unit :=
  set_state (setEditingSource (Some source)) ;;
  set_state (setFormData
    (mkFormData
       (Source.name source)
       (Source.url source)
       (or_empty (Source.category source))
       (join (str ", ") (Source.tags source)))) ;;
  set_state (setDialogOpen true).

Definition handleDelete (id : jsstring) : Js State unit :=
  ok <- confirm "Êtes-vous sûr de vouloir supprimer cette source ?" ;;
  if negb ok then ret tt
  else
    try_catch
      (api <- API ;;
       p <- axios_delete KIgnored (api ++ str "/sources/" ++ id) ;;
       _ <- await p ;;
       toast_success "Source supprimée" ;;
       fetchSources)
      (fun error =>
         console_error "Error deleting source:" error ;;
         toast_error "Erreur lors de la suppression").

Definition handleToggle (id : jsstring) : Js State unit :=
  try_catch
    (api <- API ;;
     p <- axios_post KIgnored (api ++ str "/sources/" ++ id ++ str "/toggle") None ;;
     _ <- await p ;;
     toast_success "Statut mis à jour" ;;
     fetchSources)
    (fun error =>
       console_error "Error toggling source:" error ;;
       toast_error "Erreur lors de la mise à jour").

End Sources.

(** ** Summaries *)

Module Summaries.
Record ArticleFormData := mkArticleFormData {
  title : jsstring;
  theme : jsstring
}.

Record State := mkState {
  summaries : list Summary.t;
  filteredSummaries : list Summary.t;
  loading : bool;
  categories : list jsstring;
  tags : list jsstring;
  selectedCategory : jsstring;
  selectedTag : jsstring;
  view : jsstring;
  selectedForArticle : list jsstring;
  compilingArticle : bool;
  showCompileDialog : bool;
  articleFormData : ArticleFormData
}.

Definition setSummaries (v : list Summary.t) (st : State) : State :=
  mkState v (filteredSummaries st) (loading st) (categories st) (tags st) (selectedCategory st) (selectedTag st) (view st) (selectedForArticle st) (compilingArticle st) (showCompileDialog st) (articleFormData st).
Definition setFilteredSummaries (v : list Summary.t) (st : State) : State :=
  mkState (summaries st) v (loading st) (categories st) (tags st) (selectedCategory st) (selectedTag st) (view st) (selectedForArticle st) (compilingArticle st) (showCompileDialog st) (articleFormData st).
Definition setLoading (v : bool) (st : State) : State :=
  mkState (summaries st) (filteredSummaries st) v (categories st) (tags st) (selectedCategory st) (selectedTag st) (view st) (selectedForArticle st) (compilingArticle st) (showCompileDialog st) (articleFormData st).
Definition setCategories (v : list jsstring) (st : State) : State :=
  mkState (summaries st) (filteredSummaries st) (loading st) v (tags st) (selectedCategory st) (selectedTag st) (view st) (selectedForArticle st) (compilingArticle st) (showCompileDialog st) (articleFormData st).
Definition setTags (v : list jsstring) (st : State) : State :=
  mkState (summaries st) (filteredSummaries st) (loading st) (categories st) v (selectedCategory st) (selectedTag st) (view st) (selectedForArticle st) (compilingArticle st) (showCompileDialog st) (articleFormData st).
Definition setSelectedCategory (v : jsstring) (st : State) : State :=
  mkState (summaries st) (filteredSummaries st) (loading st) (categories st) (tags st) v (selectedTag st) (view st) (selectedForArticle st) (compilingArticle st) (showCompileDialog st) (articleFormData st).
Definition setSelectedTag (v : jsstring) (st : State) : State :=
  mkState (summaries st) (filteredSummaries st) (loading st) (categories st) (tags st) (selectedCategory st) v (view st) (selectedForArticle st) (compilingArticle st) (showCompileDialog st) (articleFormData st).
Definition setView (v : jsstring) (st : State) : State :=
  mkState (summaries st) (filteredSummaries st) (loading st) (categories st) (tags st) (selectedCategory st) (selectedTag st) v (selectedForArticle st) (compilingArticle st) (showCompileDialog st) (articleFormData st).
Definition setSelectedForArticle (v : list jsstring) (st : State) : State :=
  mkState (summaries st) (filteredSummaries st) (loading st) (categories st) (tags st) (selectedCategory st) (selectedTag st) (view st) v (compilingArticle st) (showCompileDialog st) (articleFormData st).
Definition setCompilingArticle (v : bool) (st : State) : State :=
  mkState (summaries st) (filteredSummaries st) (loading st) (categories st) (tags st) (selectedCategory st) (selectedTag st) (view st) (selectedForArticle st) v (showCompileDialog st) (articleFormData st).
Definition setShowCompileDialog (v : bool) (st : State) : State :=
  mkState (summaries st) (filteredSummaries st) (loading st) (categories st) (tags st) (selectedCategory st) (selectedTag st) (view st) (selectedForArticle st) (compilingArticle st) v (articleFormData st).
Definition setArticleFormData (v : ArticleFormData) (st : State) : State :=
  mkState (summaries st) (filteredSummaries st) (loading st) (categories st) (tags st) (selectedCategory st) (selectedTag st) (view st) (selectedForArticle st) (compilingArticle st) (showCompileDialog st) v.

Definition fetchData : Js State unit :=
  try_catch_finally
    (api <- API ;;
     p1 <- axios_get KSummaries (api ++ str "/summaries") ;;
     p2 <- axios_get KStrings (api ++ str "/categories") ;;
     p3 <- axios_get KStrings (api ++ str "/tags") ;;
     '(summariesRes, categoriesRes, tagsRes) <- await (Promise_all3 p1 p2 p3) ;;
     set_state (setSummaries summariesRes) ;;
     set_state (setCategories categoriesRes) ;;
     set_state (setTags tagsRes))
    (fun error =>
       console_error "Error fetching data:" error ;;
       toast_error "Erreur lors du chargement")
    (set_state (setLoading false)).

(** The effect that runs [filterSummaries] after a render in which
    [summaries], [selectedCategory], [selectedTag] or [view] changed. *)
Definition useEffect_filterSummaries
  (localeCompare : jsstring -> jsstring -> Z) : Js State unit :=
  st <- rendered ;;
  set_state (setFilteredSummaries
    (filterSummaries localeCompare (summaries st) (selectedCategory st)
       (selectedTag st) (view st))).

Definition onChange_toggleSummarySelection (id : jsstring) : Js State unit :=
  set_state (fun st =>
    setSelectedForArticle (toggleSummarySelection id (selectedForArticle st)) st).

Definition handleCompileArticle : Js State unit :=
  st <- rendered ;;
  emit PreventDefault ;;
  if (List.length (selectedForArticle st) <? 2)%nat
  then toast_error "Veuillez sélectionner au moins 2 résumés pour compiler un article"
  else
    set_state (setCompilingArticle true) ;;
    try_catch_finally
      (api <- API ;;
       p <- axios_post KArticle (api ++ str "/articles")
              (Some (ArticlePayload (title (articleFormData st))
                                    (theme (articleFormData st))
                                    (selectedForArticle st))) ;;
       response <- await p ;;
       toast_success "Article compilé avec succès !" ;;
       set_state (setShowCompileDialog false) ;;
       set_state (setArticleFormData (mkArticleFormData (str "") (str ""))) ;;
       set_state (setSelectedForArticle []) ;;
       navigate (str "/articles/" ++ Article.id response))
      (fun error =>
         console_error "Error compiling article:" error ;;
         toast_error "Erreur lors de la compilation de l'article")
      (set_state (setCompilingArticle false)).

(** The [onClick] handler of the button [delete-summary-btn]. *)
Definition onClick_deleteSummary (summary : Summary.t) : Js State unit :=
  emit StopPropagation ;;
  ok <- confirm "Êtes-vous sûr de vouloir supprimer ce résumé ?" ;;
  if ok then
    try_catch
      (api <- API ;;
       p <- axios_delete KIgnored (api ++ str "/summaries/" ++ Summary.id summary) ;;
       _ <- await p ;;
       toast_success "Résumé supprimé" ;;
       fetchData)
      (fun error =>
         console_error "Error deleting summary:" error ;;
         toast_error "Erreur lors de la suppression")
  else ret tt.






End Summaries.

(** ** Summary detail *)

Module SummaryDetail.
Record State := mkState {
  id : jsstring;
  summary : option Summary.t;
  loading : bool
}.

Definition setId (v : jsstring) (st : State) : State :=
  mkState v (summary st) (loading st).
Definition setSummary (v : option Summary.t) (st : State) : State :=
  mkState (id st) v (loading st).
Definition setLoading (v : bool) (st : State) : State :=
  mkState (id st) (summary st) v.

Definition fetchSummary : Js State unit :=
  st <- rendered ;;
  try_catch_finally
    (api <- API ;;
     p <- axios_get KSummary (api ++ str "/summaries/" ++ id st) ;;
     response <- await p ;;
     set_state (setSummary (Some response)) ;;
     if Summary.is_new response
     then
       q <- axios_post KIgnored
              (api ++ str "/summaries/" ++ id st ++ str "/mark-read") None ;;
       _ <- await q ;;
       ret tt
     else ret tt)
    (fun error =>
       console_error "Error fetching summary:" error ;;
       toast_error "Erreur lors du chargement")
    (set_state (setLoading false)).

End SummaryDetail.

(** ** Single URL *)

Module SingleUrl.
Record State := mkState {
  url : jsstring;
  result : option UrlResult.t;
  loading : bool;
  saveOption : bool
}.

Definition setUrl (v : jsstring) (st : State) : State :=
  mkState v (result st) (loading st) (saveOption st).
Definition setResult (v : option UrlResult.t) (st : State) : State :=
  mkState (url st) v (loading st) (saveOption st).
Definition setLoading (v : bool) (st : State) : State :=
  mkState (url st) (result st) v (saveOption st).
Definition setSaveOption (v : bool) (st : State) : State :=
  mkState (url st) (result st) (loading st) v.

Definition handleSubmit : Js State unit :=
  st <- rendered ;;
  emit PreventDefault ;;
  set_state (setLoading true) ;;
  set_state (setResult None) ;;
  try_catch_finally
    (api <- API ;;
     p <- axios_post KUrlResult (api ++ str "/process-url")
            (Some (ProcessUrlPayload (url st) (saveOption st))) ;;
     response <- await p ;;
     set_state (setResult (Some response)) ;;
     toast_success "Résumé généré avec succès")
    (fun error =>
       console_error "Error processing URL:" error ;;
       toast_error "Erreur lors du traitement de l'URL")
    (set_state (setLoading false)).

End SingleUrl.

(** ** Articles *)

Module Articles.
Record State := mkState {
  articles : list Article.t;
  loading : bool
}.

Definition setArticles (v : list Article.t) (st : State) : State :=
  mkState v (loading st).
Definition setLoading (v : bool) (st : State) : State :=
  mkState (articles st) v.

Definition fetchData : Js State unit :=
  try_catch_finally
    (api <- API ;;
     p <- axios_get KArticles (api ++ str "/articles") ;;
     articlesRes <- await p ;;
     set_state (setArticles articlesRes))
    (fun error =>
       console_error "Error fetching data:" error ;;
       toast_error "Erreur lors du chargement")
    (set_state (setLoading false)).

(** The [onClick] handler of the button [delete-article-btn]. *)
Definition onClick_deleteArticle (article : Article.t) : Js State unit :=
  emit StopPropagation ;;
  ok <- confirm "Êtes-vous sûr de vouloir supprimer cet article ?" ;;
  if ok then
    try_catch
      (api <- API ;;
       p <- axios_delete KIgnored (api ++ str "/articles/" ++ Article.id article) ;;
       _ <- await p ;;
       toast_success "Article supprimé" ;;
       fetchData)
      (fun error =>
         console_error "Error deleting article:" error ;;
         toast_error "Erreur lors de la suppression")
  else ret tt.

End Articles.

(** ** Article detail *)

Module ArticleDetail.
Record State := mkState {
  id : jsstring;
  article : option Article.t;
  loading : bool
}.

Definition setId (v : jsstring) (st : State) : State :=
  mkState v (article st) (loading st).
Definition setArticle (v : option Article.t) (st : State) : State :=
  mkState (id st) v (loading st).
Definition setLoading (v : bool) (st : State) : State :=
  mkState (id st) (article st) v.

Definition fetchArticle : Js State unit :=
  st <- rendered ;;
  try_catch_finally
    (api <- API ;;
     p <- axios_get KArticle (api ++ str "/articles/" ++ id st) ;;
     response <- await p ;;
     set_state (setArticle (Some response)))
    (fun error =>
       console_error "Error fetching article:" error ;;
       toast_error "Erreur lors du chargement")
    (set_state (setLoading false)).

End ArticleDetail.

(** ** A concrete host and sample data *)

(** Comparison by code units, a [localeCompare] with the value in
    [{-1, 0, 1}]. *)
Fixpoint codeUnitCompare (a b : jsstring) : Z :=
  match a, b with
  | [], [] => 0
  | [], _ :: _ => -1
  | _ :: _, [] => 1
  | x :: a', y :: b' =>
      match N.compare x y with
      | Lt => -1
      | Gt => 1
      | Eq => codeUnitCompare a' b'
      end
  end.

(** A summary with the given id, category, tags and time value. *)
Definition sampleSummary (i : string) (c : nullable jsstring)
  (ts : nullable (list jsstring)) (t : Z) : Summary.t :=
  Summary.mk (str i) (str "title") (str "text") (str "https://example.org")
    (str "source") Null c ts t false.

(** A backend that rejects every request, and one that answers every
    request with empty data. *)
Definition rejectAll (k : Kind) (_ : list Event) (_ : HttpRequest)
  : option (data_of k) := None.

Definition sampleArticle : Article.t :=
  Article.mk (str "a1") (str "t") (str "th") (str "c") Null [] 0.

Definition acceptAll (k : Kind) (_ : list Event) (_ : HttpRequest)
  : option (data_of k) :=
  Some match k return data_of k with
       | KStats => Stats.mk 0 0 0 0 0
       | KSources => []
       | KSummaries => []
       | KStrings => []
       | KSummary => sampleSummary "s1" Null Null 0
       | KUrlResult => UrlResult.mk (str "t") (str "u") (str "s")
       | KArticles => []
       | KArticle => sampleArticle
       | KIgnored => tt
       end.

(** A source with one tag, the empty string: what the form stores for
    a tags field of one space. *)
Definition sourceWithEmptyTag : Source.t :=
  Source.mk (str "42") (str "Blog") (str "https://example.org/feed")
    (Val (str "LLMs")) [str ""] true Null.

Definition sourceWithTags : Source.t :=
  Source.mk (str "7") (str "Lab") (str "https://example.org/lab")
    Null [str "GPT"; str "Open Source"; str ""] true Null.

Definition closedDialog : Sources.State :=
  Sources.mkState [] false false None Sources.emptyForm.

Definition offline : Env := mkEnv (str "http://localhost:8001") rejectAll (fun _ => true).
Definition online : Env := mkEnv (str "http://localhost:8001") acceptAll (fun _ => true).

(** ** Vocabulary of the statements *)

(** Newest first. *)
Definition newest_first (a b : Summary.t) : Prop :=
  Summary.created_at b <= Summary.created_at a.

(** By category ascending, a missing category standing for the empty
    string, and newest first among equal categories. *)
Definition category_then_recency (localeCompare : jsstring -> jsstring -> Z)
  (a b : Summary.t) : Prop :=
  localeCompare (or_empty (Summary.category a)) (or_empty (Summary.category b)) < 0
  \/ (localeCompare (or_empty (Summary.category a)) (or_empty (Summary.category b)) = 0
      /\ Summary.created_at b <= Summary.created_at a).

(** Summaries whose categories compare equal hold the very same
    category value: no [null] next to [undefined] or [""], and no two
    different strings that the collation equates. *)
Definition ties_are_identical (localeCompare : jsstring -> jsstring -> Z)
  (l : list Summary.t) : Prop :=
  forall a b, In a l -> In b l ->
    localeCompare (or_empty (Summary.category a)) (or_empty (Summary.category b)) = 0 ->
    Summary.category a = Summary.category b.

(** By category ascending alone, a missing category standing for the
    empty string. *)
Definition by_category (localeCompare : jsstring -> jsstring -> Z)
  (a b : Summary.t) : Prop :=
  localeCompare (or_empty (Summary.category a)) (or_empty (Summary.category b)) <= 0.

(** The summaries whose category compares equal to [k]. *)
Definition in_group (localeCompare : jsstring -> jsstring -> Z) (k : jsstring)
  (s : Summary.t) : Prop :=
  localeCompare (or_empty (Summary.category s)) k = 0.

(** The summaries of [l] whose category compares equal to [k] all hold
    the same category value. *)
Definition uniform_group (localeCompare : jsstring -> jsstring -> Z)
  (k : jsstring) (l : list Summary.t) : Prop :=
  forall a b, In a l -> In b l ->
    in_group localeCompare k a -> in_group localeCompare k b ->
    Summary.category a = Summary.category b.

(** Newest first among the summaries whose category compares equal to
    [k]. *)
Definition newest_first_in_group (localeCompare : jsstring -> jsstring -> Z)
  (k : jsstring) (a b : Summary.t) : Prop :=
  in_group localeCompare k a -> in_group localeCompare k b ->
  Summary.created_at b <= Summary.created_at a.

(** The two filters of the Summaries view, in the words of the
    specification. *)
Definition passes_category (selectedCategory : jsstring) (s : Summary.t) : Prop :=
  selectedCategory = str "all" \/ Summary.category s = Val selectedCategory.

Definition passes_tag (selectedTag : jsstring) (s : Summary.t) : Prop :=
  selectedTag = str "all"
  \/ exists ts, Summary.tags s = Val ts /\ In selectedTag ts.

(** The comparator decides the order [R] on the elements of [l], and
    [R] is transitive there: the comparator is consistent on [l]. *)
Definition decides_on {A} (comparefn : A -> A -> Z) (R : A -> A -> Prop)
  (l : list A) : Prop :=
  forall x y, In x l -> In y l ->
    (comparefn x y <= 0 -> R x y) /\ (0 < comparefn x y -> R y x).

Definition transitive_on {A} (R : A -> A -> Prop) (l : list A) : Prop :=
  forall x y z, In x l -> In y l -> In z l -> R x y -> R y z -> R x z.

(** A string begins, or ends, with a character that [trim] strips. *)
Definition leading_whitespace (t : jsstring) : bool :=
  match t with
  | c :: _ => is_white_space c
  | [] => false
  end.

Definition trailing_whitespace (t : jsstring) : bool :=
  leading_whitespace (rev t).

(** [t] is [p] without its surrounding whitespace. *)
Definition trimmed_of (p t : jsstring) : Prop :=
  exists l r, p = l ++ t ++ r
              /\ Forall (fun c => is_white_space c = true) l
              /\ Forall (fun c => is_white_space c = true) r
              /\ leading_whitespace t = false
              /\ trailing_whitespace t = false.

(** A tag that the form can show and read back: no comma, no
    whitespace at either end. *)
Definition clean_tag (t : jsstring) : Prop :=
  ~ In comma t /\ leading_whitespace t = false /\ trailing_whitespace t = false.

(** The requests of the client, by endpoint. *)
Definition api (env : Env) (path : jsstring) : jsstring :=
  (BACKEND_URL env ++ str "/api") ++ path.

Definition GET_stats env := mkRequest GET (api env (str "/stats")) None.
Definition GET_recent_summaries env :=
  mkRequest GET (api env (str "/summaries?limit=6")) None.
Definition GET_sources env := mkRequest GET (api env (str "/sources")) None.
Definition POST_sources env body :=
  mkRequest POST (api env (str "/sources")) (Some body).
Definition PUT_source env id body :=
  mkRequest PUT (api env (str "/sources/" ++ id)) (Some body).
Definition DELETE_source env id :=
  mkRequest DELETE (api env (str "/sources/" ++ id)) None.
Definition POST_source_toggle env id :=
  mkRequest POST (api env (str "/sources/" ++ id ++ str "/toggle")) None.
Definition GET_summaries env := mkRequest GET (api env (str "/summaries")) None.
Definition GET_categories env := mkRequest GET (api env (str "/categories")) None.
Definition GET_tags env := mkRequest GET (api env (str "/tags")) None.
Definition DELETE_summary env id :=
  mkRequest DELETE (api env (str "/summaries/" ++ id)) None.
Definition GET_summary env id :=
  mkRequest GET (api env (str "/summaries/" ++ id)) None.
Definition POST_mark_read env id :=
  mkRequest POST (api env (str "/summaries/" ++ id ++ str "/mark-read")) None.
Definition POST_articles env body :=
  mkRequest POST (api env (str "/articles")) (Some body).
Definition GET_articles env := mkRequest GET (api env (str "/articles")) None.
Definition DELETE_article env id :=
  mkRequest DELETE (api env (str "/articles/" ++ id)) None.
Definition GET_article env id :=
  mkRequest GET (api env (str "/articles/" ++ id)) None.
Definition POST_process_url env body :=
  mkRequest POST (api env (str "/process-url")) (Some body).

(** The request [handleSubmit] of Sources sends for a state. *)
Definition submit_request env (st : Sources.State) : HttpRequest :=
  match Sources.editingSource st with
  | Some editing =>
      PUT_source env (Source.id editing) (Sources.payload (Sources.formData st))
  | None => POST_sources env (Sources.payload (Sources.formData st))
  end.

(** Opening the edit dialog on a source and submitting the form as it
    is. *)
Definition edit_then_submit (source : Source.t) : Js Sources.State unit :=
  Sources.handleEdit source ;; Sources.handleSubmit.

(** The request [handleCompileArticle] sends for a state. *)
Definition compile_request env (st : Summaries.State) : HttpRequest :=
  POST_articles env
    (ArticlePayload (Summaries.title (Summaries.articleFormData st))
                    (Summaries.theme (Summaries.articleFormData st))
                    (Summaries.selectedForArticle st)).

(** The data each view renders: its lists, the selection and the form
    contents, without the busy flags ([loading], [compilingArticle]);
    for the single-URL view, the form. *)
Definition Dashboard_data (st : Dashboard.State) :=
  (Dashboard.stats st, Dashboard.recentSummaries st).
Definition Sources_data (st : Sources.State) :=
  (Sources.sources st, Sources.dialogOpen st, Sources.editingSource st,
   Sources.formData st).
Definition Summaries_data (st : Summaries.State) :=
  (Summaries.summaries st, Summaries.filteredSummaries st,
   Summaries.categories st, Summaries.tags st,
   Summaries.selectedCategory st, Summaries.selectedTag st, Summaries.view st,
   Summaries.selectedForArticle st, Summaries.showCompileDialog st,
   Summaries.articleFormData st).
Definition SummaryDetail_data (st : SummaryDetail.State) :=
  (SummaryDetail.id st, SummaryDetail.summary st).
Definition SingleUrl_form (st : SingleUrl.State) :=
  (SingleUrl.url st, SingleUrl.saveOption st).
Definition Articles_data (st : Articles.State) := Articles.articles st.
Definition ArticleDetail_data (st : ArticleDetail.State) :=
  (ArticleDetail.id st, ArticleDetail.article st).

(** The requests and the toasts among some events. *)
Definition requests_of (evs : list Event) : list HttpRequest :=
  flat_map (fun e => match e with Request r => [r] | _ => [] end) evs.

Definition toasts_of (evs : list Event) : list Event :=
  filter (fun e => match e with
                   | ToastSuccess _ | ToastError _ => true
                   | _ => false
                   end) evs.

(** A handler caught the rejection: it completes normally, has issued
    the requests [reqs] and no other, has shown one toast, an error,
    and has left the data [data] of the state as it was. *)
Definition reports_failure {S D : Type} (data : S -> D) (h : Js S unit)
  (env : Env) (st : S) (tr : list Event) (reqs : list HttpRequest) : Prop :=
  exists st' evs msg,
    h env st tr = (Normal tt, st', tr ++ evs)
    /\ requests_of evs = reqs
    /\ toasts_of evs = [ToastError msg]
    /\ data st' = data st.

(** ** Article detail: the labels of the source links *)

Module SourceRef.
Record t := mk {
  url : jsstring;
  title : jsstring;
  source_name : jsstring
}.
End SourceRef.

(** [p] is a prefix of [s]. *)
Fixpoint starts_with (p s : jsstring) : bool :=
  match p, s with
  | [], _ => true
  | _ :: _, [] => false
  | x :: p', y :: s' => N.eqb x y && starts_with p' s'
  end.

(** [s.includes(p)] on strings. *)
Fixpoint str_includes (p s : jsstring) : bool :=
  starts_with p s
  || match s with
     | [] => false
     | _ :: s' => str_includes p s'
     end.

(** [s.replace(p, r)] for a string pattern [p] and a replacement [r]
    without [$]: the first occurrence of [p] is replaced. *)
Fixpoint replace_first (p r s : jsstring) : jsstring :=
  if starts_with p s then r ++ skipn (List.length p) s
  else match s with
       | [] => []
       | c :: s' => c :: replace_first p r s'
       end.

(** [\d] of a regular expression without the unicode flag. *)
Definition is_digit (c : codeunit) : bool := (N.leb 48 c && N.leb c 57)%N.

(** The longest prefix of digits, and what follows it. *)
Fixpoint span_digits (s : jsstring) : jsstring * jsstring :=
  match s with
  | [] => ([], [])
  | c :: s' =>
      if is_digit c
      then let (d, r) := span_digits s' in (c :: d, r)
      else ([], s)
  end.

(** The group of [/\[(\d+\.\d+)\]/] when the expression matches at the
    start of [s].  A digit is neither [.] nor [\]], so the greedy
    [\d+] can only stop at the end of the run of digits. *)
Definition arxiv_at (s : jsstring) : option jsstring :=
  match s with
  | [] => None
  | c :: s1 =>
      if N.eqb c 91
      then match span_digits s1 with
           | ((_ :: _) as d1, dot :: s2) =>
               if N.eqb dot 46
               then match span_digits s2 with
                    | ((_ :: _) as d2, close :: _) =>
                        if N.eqb close 93 then Some (d1 ++ 46%N :: d2) else None
                    | _ => None
                    end
               else None
           | _ => None
           end
      else None
  end.

(** [arxivMatch[1]] of [title.match(/\[(\d+\.\d+)\]/)]: the group of
    the leftmost match, [None] when there is no match. *)
Fixpoint arxivMatch (title : jsstring) : option jsstring :=
  match arxiv_at title with
  | Some group => Some group
  | None => match title with
            | [] => None
            | _ :: title' => arxivMatch title'
            end
  end.

(** [`${title.substring(0, 40)}${title.length > 40 ? '...' : ''}`]. *)
Definition shortTitle (title : jsstring) : jsstring :=
  firstn 40 title ++ (if (40 <? List.length title)%nat then str "..." else str "").

(** [urlObj.hostname.replace('www.', '')]. *)
Definition domainOf (hostname : jsstring) : jsstring :=
  replace_first (str "www.") (str "") hostname.

(** The text of a source link of an article.  [hostname url] is
    [new URL(url).hostname] of the host, [None] when the constructor
    throws. *)
Definition sourceRef_displayText (hostname : jsstring -> option jsstring)
  (sourceRef : SourceRef.t) : jsstring :=
  match hostname (SourceRef.url sourceRef) with
  | Some h =>
      let domain := domainOf h in
      if str_includes (str "linkedin.com") domain
      then str "LinkedIn - " ++ SourceRef.source_name sourceRef
      else if str_includes (str "arxiv.org") domain
      then match arxivMatch (SourceRef.title sourceRef) with
           | Some group => str "arXiv " ++ group
           | None => domain ++ str " - " ++ shortTitle (SourceRef.title sourceRef)
           end
      else domain ++ str " - " ++ shortTitle (SourceRef.title sourceRef)
  | None => SourceRef.title sourceRef
  end.

(** ** More vocabulary *)

(** The test a summary passes to be shown, as [filterSummaries]
    applies it. *)
Definition shown (selectedCategory selectedTag : jsstring) (s : Summary.t) : bool :=
  (str_eqb selectedCategory (str "all")
   || strict_eq (Summary.category s) (Val selectedCategory))
  && (str_eqb selectedTag (str "all")
      || match Summary.tags s with
         | Val ts => includes ts selectedTag
         | _ => false
         end).

(** The checkbox of each id of [ids] clicked in turn. *)
Definition toggles (ids : list jsstring) (selection : list jsstring)
  : list jsstring :=
  fold_left (fun sel id => toggleSummarySelection id sel) ids selection.

(** How many times [x] occurs in [l]. *)
Definition occurrences (x : jsstring) (l : list jsstring) : nat :=
  List.length (filter (str_eqb x) l).

Definition payload_category (b : Body) : nullable jsstring :=
  match b with
  | SourcePayload _ _ c _ => c
  | _ => Undefined
  end.

Definition payload_tags (b : Body) : list jsstring :=
  match b with
  | SourcePayload _ _ _ ts => ts
  | _ => []
  end.

(** An arXiv identifier as the expression reads it: digits, a dot,
    digits. *)
Definition is_arxiv_id (g : jsstring) : Prop :=
  exists d1 d2,
    g = d1 ++ 46%N :: d2
    /\ d1 <> [] /\ d2 <> []
    /\ Forall (fun c => is_digit c = true) d1
    /\ Forall (fun c => is_digit c = true) d2.

(** [p] occurs in [s]. *)
Definition occurs_in (p s : jsstring) : Prop :=
  exists pre post, s = pre ++ p ++ post.

(** The requests other than [GET] among some events. *)
Definition mutations_of (evs : list Event) : list HttpRequest :=
  filter (fun r => match req_method r with GET => false | _ => true end)
         (requests_of evs).

(** A handler never lets an error escape. *)
Definition completes_normally {S : Type} (h : Js S unit) : Prop :=
  forall env st tr, fst (fst (h env st tr)) = Normal tt.

(** A handler only appends events, and the events it appends satisfy
    [P]. *)
Definition emits {S : Type} (h : Js S unit) (P : Env -> list Event -> Prop) : Prop :=
  forall env st tr, exists evs, snd (h env st tr) = tr ++ evs /\ P env evs.

(** The state a handler leaves. *)
Definition state_after {S : Type} (h : Js S unit) (env : Env) (st : S)
  (tr : list Event) : S :=
  snd (fst (h env st tr)).

(** The events a handler adds to an empty trace. *)
Definition events_of {S : Type} (h : Js S unit) (env : Env) (st : S) : list Event :=
  snd (h env st []).

(** A user who answers no to every confirmation. *)
Definition declining : Env :=
  mkEnv (str "http://localhost:8001") acceptAll (fun _ => false).

(** A backend that serves two summaries, and empty data otherwise. *)
Definition serveTwo (k : Kind) (tr : list Event) (r : HttpRequest)
  : option (data_of k) :=
  match k return option (data_of k) with
  | KSummaries =>
      Some [sampleSummary "s1" (Val (str "LLMs")) Null 10;
            sampleSummary "s2" (Val (str "Vision")) Null 20]
  | k' => acceptAll k' tr r
  end.

Definition serving : Env :=
  mkEnv (str "http://localhost:8001") serveTwo (fun _ => true).

Definition summariesView (selection : list jsstring) : Summaries.State :=
  Summaries.mkState [] [] true [] [] (str "all") (str "all")
    (str "chronological") selection false true
    (Summaries.mkArticleFormData (str "Title") (str "Theme")).

(** A host whose URL constructor accepts the strings that begin with
    [https://] and takes what follows as the host name. *)
Definition sampleHostname (url : jsstring) : option jsstring :=
  if starts_with (str "https://") url then Some (skipn 8 url) else None.

(** ** Lemmas on JavaScript values *)

Lemma str_eqb_spec (a b : jsstring) : reflect (a = b) (str_eqb a b).
Proof.
  revert b; induction a as [|x a IH]; intros [|y b]; simpl;
    try (constructor; congruence).
  destruct (N.eqb_spec x y) as [->|Hxy]; simpl.
  - destruct (IH b) as [->|Hab]; constructor; congruence.
  - constructor; congruence.
Qed.

Lemma str_eqb_eq (a b : jsstring) : str_eqb a b = true <-> a = b.
Proof. destruct (str_eqb_spec a b); split; congruence. Qed.

Lemma str_eqb_refl (a : jsstring) : str_eqb a a = true.
Proof. apply str_eqb_eq; reflexivity. Qed.

Lemma str_eqb_neq (a b : jsstring) : str_eqb a b = false <-> a <> b.
Proof. destruct (str_eqb_spec a b); split; congruence. Qed.

Lemma strict_eq_eq (a b : nullable jsstring) : strict_eq a b = true <-> a = b.
Proof.
  destruct a as [| |x], b as [| |y]; simpl; split; try congruence; try reflexivity.
  - intros H; apply str_eqb_eq in H; congruence.
  - intros H; inversion H; apply str_eqb_refl.
Qed.

Lemma includes_In (l : list jsstring) (x : jsstring) :
  includes l x = true <-> In x l.
Proof.
  unfold includes; rewrite existsb_exists; split.
  - intros [y [Hy E]]; apply str_eqb_eq in E; subst; exact Hy.
  - intros H; exists x; split; [exact H | apply str_eqb_refl].
Qed.

(** ** [Array.prototype.sort]: permutation and order *)

Section ArraySortFacts.
Context {A : Type}.
Variable comparefn : A -> A -> Z.

Lemma sort_insert_perm (x : A) (l : list A) :
  Permutation (sort_insert comparefn x l) (x :: l).
Proof.
  induction l as [|y l IH]; simpl; [reflexivity|].
  destruct (comparefn x y <=? 0); [reflexivity|].
  rewrite IH; apply perm_swap.
Qed.

Lemma array_sort_perm (l : list A) : Permutation (array_sort comparefn l) l.
Proof.
  induction l as [|x l IH]; simpl; [constructor|].
  rewrite sort_insert_perm; constructor; exact IH.
Qed.

Lemma array_sort_In (l : list A) (x : A) :
  In x (array_sort comparefn l) <-> In x l.
Proof.
  split; apply Permutation_in;
    [apply array_sort_perm | apply Permutation_sym, array_sort_perm].
Qed.

(** The sort is stable: elements that tie with one another keep the
    order they had. *)
Lemma sort_insert_stable (p : A -> bool) (x : A) (s : list A) :
  (forall y, In y s -> p x = true -> p y = true -> comparefn x y <= 0) ->
  filter p (sort_insert comparefn x s) = filter p (x :: s).
Proof.
  induction s as [|y s IH]; intros Htie; [reflexivity|].
  cbn [sort_insert]; destruct (Z.leb_spec (comparefn x y) 0) as [Hle|Hgt];
    [reflexivity|].
  cbn [filter]; rewrite IH by (intros z Hz; apply Htie; right; exact Hz).
  cbn [filter]; destruct (p x) eqn:Px; [|reflexivity].
  destruct (p y) eqn:Py; [|reflexivity].
  specialize (Htie y (or_introl eq_refl) eq_refl Py); lia.
Qed.

Lemma array_sort_stable (p : A -> bool) (l : list A) :
  (forall x y, In x l -> In y l -> p x = true -> p y = true ->
               comparefn x y <= 0) ->
  filter p (array_sort comparefn l) = filter p l.
Proof.
  induction l as [|x l IH]; intros Htie; [reflexivity|].
  cbn [array_sort fold_right]; fold (array_sort comparefn l).
  rewrite sort_insert_stable.
  - cbn [filter]; rewrite IH; [reflexivity|].
    intros u v Hu Hv; apply Htie; right; assumption.
  - intros y Hy; apply Htie; [left; reflexivity|].
    right; apply array_sort_In, Hy.
Qed.

Variable R : A -> A -> Prop.

Lemma sort_insert_sorted (x : A) (s : list A) :
  decides_on comparefn R (x :: s) -> transitive_on R (x :: s) ->
  StronglySorted R s -> StronglySorted R (sort_insert comparefn x s).
Proof.
  intros Hdec Htr Hs; induction Hs as [|y s Hs IH Hall]; simpl.
  - repeat constructor.
  - destruct (Z.leb_spec (comparefn x y) 0) as [Hle|Hgt].
    + assert (Rxy : R x y) by (apply (Hdec x y); simpl; auto).
      constructor; [constructor; assumption|].
      constructor; [exact Rxy|].
      rewrite Forall_forall in *; intros z Hz.
      apply (Htr x y z); simpl; auto.
    + constructor.
      * apply IH.
        -- intros u v Hu Hv; apply Hdec; simpl in *; tauto.
        -- intros u v w Hu Hv Hw; apply Htr; simpl in *; tauto.
      * rewrite Forall_forall in *; intros z Hz.
        apply (Permutation_in _ (sort_insert_perm x s)) in Hz.
        destruct Hz as [<-|Hz]; [|auto].
        apply (Hdec x y); simpl; auto.
Qed.

Lemma array_sort_sorted (l : list A) :
  decides_on comparefn R l -> transitive_on R l ->
  StronglySorted R (array_sort comparefn l).
Proof.
  induction l as [|x l IH]; intros Hdec Htr; simpl; [constructor|].
  apply sort_insert_sorted.
  - intros u v Hu Hv; apply Hdec.
    + destruct Hu as [<-|Hu]; [left; reflexivity | right; apply array_sort_In, Hu].
    + destruct Hv as [<-|Hv]; [left; reflexivity | right; apply array_sort_In, Hv].
  - intros u v w Hu Hv Hw; apply Htr.
    + destruct Hu as [<-|Hu]; [left; reflexivity | right; apply array_sort_In, Hu].
    + destruct Hv as [<-|Hv]; [left; reflexivity | right; apply array_sort_In, Hv].
    + destruct Hw as [<-|Hw]; [left; reflexivity | right; apply array_sort_In, Hw].
  - apply IH.
    + intros u v Hu Hv; apply Hdec; simpl; auto.
    + intros u v w Hu Hv Hw; apply Htr; simpl; auto.
Qed.

End ArraySortFacts.

(** ** The Summaries filter *)

Lemma filterSummaries_perm localeCompare summaries selectedCategory selectedTag view :
  Permutation
    (filterSummaries localeCompare summaries selectedCategory selectedTag view)
    (filter (fun s =>
               (str_eqb selectedCategory (str "all")
                || strict_eq (Summary.category s) (Val selectedCategory))
               && (str_eqb selectedTag (str "all")
                   || match Summary.tags s with
                      | Val ts => includes ts selectedTag
                      | _ => false
                      end))
            summaries).
Proof.
  unfold filterSummaries.
  match goal with
  | |- Permutation (if _ then array_sort _ ?l else array_sort _ ?l) ?r =>
      assert (E : l = r)
  end.
  { destruct (str_eqb selectedCategory (str "all")),
             (str_eqb selectedTag (str "all")); simpl.
    - induction summaries as [|s l IH]; simpl; congruence.
    - apply filter_ext; intros s; reflexivity.
    - apply filter_ext; intros s; rewrite andb_true_r; reflexivity.
    - induction summaries as [|s l IH]; simpl; [reflexivity|].
      destruct (strict_eq (Summary.category s) (Val selectedCategory)); simpl;
        [destruct (match Summary.tags s with Val ts => includes ts selectedTag
                   | _ => false end)|]; congruence. }
  rewrite E; destruct (str_eqb view (str "category")); apply array_sort_perm.
Qed.

Lemma filterSummaries_In localeCompare summaries selectedCategory selectedTag view s :
  In s (filterSummaries localeCompare summaries selectedCategory selectedTag view)
  <-> In s summaries /\ passes_category selectedCategory s
      /\ passes_tag selectedTag s.
Proof.
  split.
  - intros H; apply (Permutation_in _ (filterSummaries_perm _ _ _ _ _)) in H.
    apply filter_In in H; destruct H as [Hin H].
    apply andb_true_iff in H; destruct H as [Hc Ht].
    split; [exact Hin|]; split.
    + apply orb_true_iff in Hc; destruct Hc as [Hc|Hc];
        [left; apply str_eqb_eq, Hc | right; apply strict_eq_eq, Hc].
    + apply orb_true_iff in Ht; destruct Ht as [Ht|Ht];
        [left; apply str_eqb_eq, Ht|].
      right; destruct (Summary.tags s) as [| |ts]; try discriminate.
      exists ts; split; [reflexivity | apply includes_In, Ht].
  - intros [Hin [Hc Ht]].
    apply (Permutation_in _ (Permutation_sym (filterSummaries_perm _ _ _ _ _))).
    apply filter_In; split; [exact Hin|].
    apply andb_true_iff; split; apply orb_true_iff.
    + destruct Hc as [Hc|Hc];
        [left; apply str_eqb_eq, Hc | right; apply strict_eq_eq, Hc].
    + destruct Ht as [Ht|[ts [E Ht]]]; [left; apply str_eqb_eq, Ht|].
      right; rewrite E; apply includes_In, Ht.
Qed.

(** C2. [filterSummaries] keeps exactly the summaries that pass both
    filters: its output is a rearrangement of the input summaries that
    pass the category filter (the selection is "all", or the category is
    the selected one) and the tag filter (the selection is "all", or the
    tags exist and contain the selected tag); nothing else appears in it
    and nothing that passes is lost or repeated. *)
Theorem filterSummaries_keeps_exactly :
  forall localeCompare summaries selectedCategory selectedTag view,
    (forall s,
        In s (filterSummaries localeCompare summaries selectedCategory selectedTag view)
        <-> In s summaries /\ passes_category selectedCategory s
            /\ passes_tag selectedTag s)
    /\ exists keep : Summary.t -> bool,
        (forall s, keep s = true
                   <-> passes_category selectedCategory s /\ passes_tag selectedTag s)
        /\ Permutation
             (filterSummaries localeCompare summaries selectedCategory selectedTag view)
             (filter keep summaries).
Proof.
  intros lc summaries selC selT view; split.
  - intros s; apply filterSummaries_In.
  - eexists; split; [|apply filterSummaries_perm].
    intros s; cbv beta.
    rewrite andb_true_iff, !orb_true_iff, !str_eqb_eq, strict_eq_eq.
    unfold passes_category, passes_tag.
    enough (T : match Summary.tags s with Val ts => includes ts selT | _ => false end = true
                <-> exists ts, Summary.tags s = Val ts /\ In selT ts) by (rewrite T; tauto).
    destruct (Summary.tags s) as [| |ts]; split; try discriminate;
      try (intros [ts' [E _]]; discriminate).
    + intros H; exists ts; split; [reflexivity | apply includes_In, H].
    + intros [ts' [E H]]; inversion E; subst; apply includes_In, H.
Qed.

(** ** The order of the Summaries view *)

Lemma compareChronological_decides (l : list Summary.t) :
  decides_on compareChronological newest_first l.
Proof.
  intros x y _ _; unfold compareChronological, newest_first; split; lia.
Qed.

Lemma newest_first_transitive (l : list Summary.t) :
  transitive_on newest_first l.
Proof. intros x y z _ _ _; unfold newest_first; lia. Qed.

Section CategoryView.
(** [localeCompare] of the host is only known to be a consistent
    comparison of strings: a total preorder. *)
Variable localeCompare : jsstring -> jsstring -> Z.
Hypothesis localeCompare_refl : forall s, localeCompare s s = 0.
Hypothesis localeCompare_antisym :
  forall a b, localeCompare a b < 0 <-> 0 < localeCompare b a.
Hypothesis localeCompare_trans :
  forall a b c, localeCompare a b <= 0 -> localeCompare b c <= 0 ->
                localeCompare a c <= 0.

Lemma localeCompare_zero_sym (a b : jsstring) :
  localeCompare a b = 0 -> localeCompare b a = 0.
Proof.
  intros H.
  pose proof (localeCompare_antisym a b); pose proof (localeCompare_antisym b a).
  lia.
Qed.

Lemma localeCompare_ge_flip (a b : jsstring) :
  0 <= localeCompare a b -> localeCompare b a <= 0.
Proof.
  intros H.
  pose proof (localeCompare_antisym a b); pose proof (localeCompare_antisym b a).
  lia.
Qed.

Lemma localeCompare_lt_le_trans (a b c : jsstring) :
  localeCompare a b < 0 -> localeCompare b c <= 0 -> localeCompare a c < 0.
Proof.
  intros Hab Hbc.
  destruct (Z.lt_ge_cases (localeCompare a c) 0) as [H|H]; [exact H|].
  apply localeCompare_ge_flip in H.
  pose proof (localeCompare_trans b c a Hbc H).
  pose proof (localeCompare_antisym a b). lia.
Qed.

Lemma localeCompare_le_lt_trans (a b c : jsstring) :
  localeCompare a b <= 0 -> localeCompare b c < 0 -> localeCompare a c < 0.
Proof.
  intros Hab Hbc.
  destruct (Z.lt_ge_cases (localeCompare a c) 0) as [H|H]; [exact H|].
  apply localeCompare_ge_flip in H.
  pose proof (localeCompare_trans c a b H Hab).
  pose proof (localeCompare_antisym b c). lia.
Qed.

Lemma category_then_recency_transitive (l : list Summary.t) :
  transitive_on (category_then_recency localeCompare) l.
Proof.
  intros x y z _ _ _; unfold category_then_recency.
  intros [Hxy|[Hxy Dxy]] [Hyz|[Hyz Dyz]].
  - left; apply (localeCompare_lt_le_trans _ _ _ Hxy); lia.
  - left; apply (localeCompare_lt_le_trans _ _ _ Hxy); lia.
  - left; apply (localeCompare_le_lt_trans _ (or_empty (Summary.category y))); lia.
  - right; split; [|lia].
    assert (localeCompare (or_empty (Summary.category x)) (or_empty (Summary.category z)) <= 0)
      by (apply (localeCompare_trans _ (or_empty (Summary.category y))); lia).
    assert (localeCompare (or_empty (Summary.category z)) (or_empty (Summary.category x)) <= 0).
    { apply localeCompare_zero_sym in Hxy, Hyz.
      apply (localeCompare_trans _ (or_empty (Summary.category y))); lia. }
    pose proof (localeCompare_antisym (or_empty (Summary.category x))
                  (or_empty (Summary.category z))). lia.
Qed.

Lemma compareCategory_decides (l : list Summary.t) :
  ties_are_identical localeCompare l ->
  decides_on (compareCategory localeCompare) (category_then_recency localeCompare) l.
Proof.
  intros Hties x y Hx Hy; unfold compareCategory, category_then_recency.
  destruct (strict_eq (Summary.category x) (Summary.category y)) eqn:E.
  - apply strict_eq_eq in E; rewrite E, localeCompare_refl; split; intros; right; lia.
  - assert (Hne : localeCompare (or_empty (Summary.category x))
                    (or_empty (Summary.category y)) <> 0).
    { intros H0; apply (Hties x y Hx Hy) in H0; apply strict_eq_eq in H0; congruence. }
    split; intros H; left; [lia|].
    apply localeCompare_antisym in H; exact H.
Qed.

Lemma by_category_group_decides (k : jsstring) (l : list Summary.t) :
  uniform_group localeCompare k l ->
  decides_on (compareCategory localeCompare)
    (fun a b => by_category localeCompare a b
                /\ newest_first_in_group localeCompare k a b) l.
Proof.
  intros Huni x y Hx Hy.
  unfold compareCategory, by_category, newest_first_in_group.
  destruct (strict_eq (Summary.category x) (Summary.category y)) eqn:E.
  - apply strict_eq_eq in E; rewrite E, localeCompare_refl.
    split; intros H; split; intros; lia.
  - assert (Hout : in_group localeCompare k x -> in_group localeCompare k y -> False).
    { intros Gx Gy; pose proof (Huni x y Hx Hy Gx Gy) as Heq.
      apply strict_eq_eq in Heq; congruence. }
    split; intros H; split; try (intros Gx Gy; exfalso; auto; fail).
    + exact H.
    + apply localeCompare_antisym in H; lia.
Qed.

Lemma in_group_between (k : jsstring) (x y z : Summary.t) :
  by_category localeCompare x y -> by_category localeCompare y z ->
  in_group localeCompare k x -> in_group localeCompare k z ->
  in_group localeCompare k y.
Proof.
  unfold by_category, in_group; intros Hxy Hyz Gx Gz.
  assert (H1 : localeCompare (or_empty (Summary.category y)) k <= 0)
    by (apply (localeCompare_trans _ (or_empty (Summary.category z))); lia).
  assert (H2 : localeCompare k (or_empty (Summary.category y)) <= 0).
  { apply localeCompare_zero_sym in Gx.
    apply (localeCompare_trans _ (or_empty (Summary.category x))); lia. }
  pose proof (localeCompare_antisym (or_empty (Summary.category y)) k). lia.
Qed.

Lemma by_category_group_transitive (k : jsstring) (l : list Summary.t) :
  transitive_on
    (fun a b => by_category localeCompare a b
                /\ newest_first_in_group localeCompare k a b) l.
Proof.
  intros x y z _ _ _ [Cxy Dxy] [Cyz Dyz]; split.
  - unfold by_category in *;
      apply (localeCompare_trans _ (or_empty (Summary.category y))); assumption.
  - intros Gx Gz.
    pose proof (in_group_between k x y z Cxy Cyz Gx Gz) as Gy.
    specialize (Dxy Gx Gy); specialize (Dyz Gy Gz); lia.
Qed.

Lemma StronglySorted_weaken {A} (R R' : A -> A -> Prop) (l : list A) :
  (forall a b, R a b -> R' a b) -> StronglySorted R l -> StronglySorted R' l.
Proof.
  intros Himp H; induction H as [|x l _ IH Hall]; constructor; [exact IH|].
  eapply Forall_impl; [|exact Hall]; intros b; apply Himp.
Qed.

(** An empty group is uniform, so the order by category needs no
    condition. *)
Lemma category_view_sorted_by_group (k : jsstring) (l : list Summary.t) :
  uniform_group localeCompare k l ->
  StronglySorted
    (fun a b => by_category localeCompare a b
                /\ newest_first_in_group localeCompare k a b)
    (array_sort (compareCategory localeCompare) l).
Proof.
  intros Huni; apply array_sort_sorted;
    [apply by_category_group_decides, Huni | apply by_category_group_transitive].
Qed.

Lemma category_view_sorted_by_category (l : list Summary.t) :
  StronglySorted (by_category localeCompare)
    (array_sort (compareCategory localeCompare) l).
Proof.
  apply array_sort_sorted.
  - intros x y _ _; unfold compareCategory, by_category.
    destruct (strict_eq (Summary.category x) (Summary.category y)) eqn:E.
    + apply strict_eq_eq in E; rewrite E, localeCompare_refl; split; intros; lia.
    + split; intros H; [exact H|].
      apply localeCompare_antisym in H; lia.
  - intros x y z _ _ _; unfold by_category;
      apply (localeCompare_trans _ (or_empty (Summary.category y))).
Qed.

(** C1 (amended). The output of [filterSummaries] follows the selected
    view.  In every view but "category", the chronological one among
    them, it is sorted newest first.  In the "category" view it is
    always sorted by category ascending, a missing category standing
    for the empty string; and the summaries whose categories compare
    equal are ordered newest first among themselves whenever those of
    them that are shown hold the very same category value.  When that
    is so of every category, the output is sorted by category and then
    newest first. *)
Theorem filterSummaries_sorted :
  forall summaries selectedCategory selectedTag view,
    (view <> str "category" ->
     StronglySorted newest_first
       (filterSummaries localeCompare summaries selectedCategory selectedTag view))
    /\ (view = str "category" ->
        StronglySorted (by_category localeCompare)
          (filterSummaries localeCompare summaries selectedCategory selectedTag view)
        /\ (forall k,
               uniform_group localeCompare k
                 (filterSummaries localeCompare summaries selectedCategory
                    selectedTag view) ->
               StronglySorted (newest_first_in_group localeCompare k)
                 (filterSummaries localeCompare summaries selectedCategory
                    selectedTag view))
        /\ (ties_are_identical localeCompare
              (filterSummaries localeCompare summaries selectedCategory
                 selectedTag view) ->
            StronglySorted (category_then_recency localeCompare)
              (filterSummaries localeCompare summaries selectedCategory
                 selectedTag view))).
Proof.
  intros summaries selC selT view; split.
  - intros Hv; apply str_eqb_neq in Hv.
    unfold filterSummaries; rewrite Hv.
    apply array_sort_sorted;
      [apply compareChronological_decides | apply newest_first_transitive].
  - intros ->; unfold filterSummaries; rewrite str_eqb_refl.
    set (filtered := if negb (str_eqb selT (str "all")) then _ else _).
    split; [apply category_view_sorted_by_category|]; split.
    + intros k Huni.
      apply (StronglySorted_weaken
               (fun a b => by_category localeCompare a b
                           /\ newest_first_in_group localeCompare k a b));
        [intros a b [_ H]; exact H|].
      apply category_view_sorted_by_group.
      intros a b Ha Hb; apply Huni; apply array_sort_In; assumption.
    + intros Hties; apply array_sort_sorted.
      * apply compareCategory_decides.
        intros a b Ha Hb; apply Hties; apply array_sort_In; assumption.
      * apply category_then_recency_transitive.
Qed.

End CategoryView.

(** The comparison by code units is a consistent [localeCompare]. *)
Lemma codeUnitCompare_refl (s : jsstring) : codeUnitCompare s s = 0.
Proof.
  induction s as [|x s IH]; simpl; [reflexivity|].
  rewrite N.compare_refl; exact IH.
Qed.

Lemma codeUnitCompare_antisym (a b : jsstring) :
  codeUnitCompare a b < 0 <-> 0 < codeUnitCompare b a.
Proof.
  revert b; induction a as [|x a IH]; intros [|y b]; simpl; try lia.
  rewrite (N.compare_antisym x y).
  destruct (N.compare x y); simpl; [apply IH | lia | lia].
Qed.

Lemma codeUnitCompare_trans (a b c : jsstring) :
  codeUnitCompare a b <= 0 -> codeUnitCompare b c <= 0 -> codeUnitCompare a c <= 0.
Proof.
  revert b c; induction a as [|x a IH]; intros [|y b] [|z c]; simpl; try lia.
  destruct (N.compare_spec x y) as [->|Hxy|Hxy]; try lia.
  - destruct (N.compare_spec y z) as [->|Hyz|Hyz]; try lia.
    apply IH.
  - destruct (N.compare_spec y z) as [->|Hyz|Hyz]; try lia; intros _ _.
    + destruct (N.compare_spec x z); lia.
    + destruct (N.compare_spec x z); lia.
Qed.

Lemma filterSummaries_sorted_witness :
  StronglySorted (category_then_recency codeUnitCompare)
    (filterSummaries codeUnitCompare
       [sampleSummary "s1" (Val (str "LLMs")) Null 10;
        sampleSummary "s2" Null Null 50;
        sampleSummary "s3" (Val (str "Ethique")) Null 20;
        sampleSummary "s4" (Val (str "LLMs")) Null 90]
       (str "all") (str "all") (str "category"))
  /\ StronglySorted newest_first
       (filterSummaries codeUnitCompare
          [sampleSummary "s1" (Val (str "LLMs")) Null 10;
           sampleSummary "s2" Null Null 50;
           sampleSummary "s3" (Val (str "Ethique")) Null 20]
          (str "all") (str "all") (str "chronological"))
  /\ StronglySorted (by_category codeUnitCompare)
       (filterSummaries codeUnitCompare
          [sampleSummary "v1" (Val (str "Vision")) Null 1;
           sampleSummary "v2" (Val (str "Vision")) Null 4;
           sampleSummary "n" Null Null 2;
           sampleSummary "u" Undefined Null 3]
          (str "all") (str "all") (str "category"))
  /\ StronglySorted (newest_first_in_group codeUnitCompare (str "Vision"))
       (filterSummaries codeUnitCompare
          [sampleSummary "v1" (Val (str "Vision")) Null 1;
           sampleSummary "v2" (Val (str "Vision")) Null 4;
           sampleSummary "n" Null Null 2;
           sampleSummary "u" Undefined Null 3]
          (str "all") (str "all") (str "category")).
Proof.
  split; [|split; [|split]].
  - apply (filterSummaries_sorted codeUnitCompare codeUnitCompare_refl
             codeUnitCompare_antisym codeUnitCompare_trans);
      [reflexivity|].
    intros a b Ha Hb.
    vm_compute in Ha; vm_compute in Hb.
    repeat (destruct Ha as [<-|Ha]; [|]); try contradiction;
      repeat (destruct Hb as [<-|Hb]; [|]); try contradiction;
      vm_compute; intros; solve [reflexivity | discriminate].
  - apply (filterSummaries_sorted codeUnitCompare codeUnitCompare_refl
             codeUnitCompare_antisym codeUnitCompare_trans).
    vm_compute; discriminate.
  - apply (filterSummaries_sorted codeUnitCompare codeUnitCompare_refl
             codeUnitCompare_antisym codeUnitCompare_trans); reflexivity.
  - apply (filterSummaries_sorted codeUnitCompare codeUnitCompare_refl
             codeUnitCompare_antisym codeUnitCompare_trans);
      [reflexivity|].
    intros a b Ha Hb.
    vm_compute in Ha; vm_compute in Hb.
    repeat (destruct Ha as [<-|Ha]; [|]); try contradiction;
      repeat (destruct Hb as [<-|Hb]; [|]); try contradiction;
      vm_compute; intros; solve [reflexivity | discriminate].
Defined.

(** C1 as stated fails in the "category" view: a summary whose category
    is [null] and a newer one whose category is missing ([undefined]),
    or is the empty string, compare equal, yet the older one stays
    first. *)
Lemma filterSummaries_category_view_counterexample :
  (filterSummaries codeUnitCompare
     [sampleSummary "old" Null Null 1; sampleSummary "new" Undefined Null 2]
     (str "all") (str "all") (str "category")
   = [sampleSummary "old" Null Null 1; sampleSummary "new" Undefined Null 2]
   /\ ~ StronglySorted (category_then_recency codeUnitCompare)
         (filterSummaries codeUnitCompare
            [sampleSummary "old" Null Null 1; sampleSummary "new" Undefined Null 2]
            (str "all") (str "all") (str "category")))
  /\ (filterSummaries codeUnitCompare
        [sampleSummary "old" Null Null 1; sampleSummary "new" (Val (str "")) Null 2]
        (str "all") (str "all") (str "category")
      = [sampleSummary "old" Null Null 1; sampleSummary "new" (Val (str "")) Null 2]
      /\ ~ StronglySorted (category_then_recency codeUnitCompare)
            (filterSummaries codeUnitCompare
               [sampleSummary "old" Null Null 1;
                sampleSummary "new" (Val (str "")) Null 2]
               (str "all") (str "all") (str "category"))).
Proof.
  split; (split; [reflexivity|]); intros H; vm_compute in H;
    inversion H as [|? ? _ Hall]; subst;
    inversion Hall as [|? ? Hr _]; subst;
    unfold category_then_recency in Hr; vm_compute in Hr;
    destruct Hr as [Hr|[_ Hr]]; try discriminate; apply Hr; reflexivity.
Qed.

(** ** The selection of summaries for an article *)

Lemma filter_neq_notin (id : jsstring) (l : list jsstring) :
  ~ In id (filter (fun s => negb (str_eqb s id)) l).
Proof.
  intros H; apply filter_In in H; destruct H as [_ H].
  rewrite str_eqb_refl in H; discriminate.
Qed.

Lemma filter_neq_id (id : jsstring) (l : list jsstring) :
  ~ In id l -> filter (fun s => negb (str_eqb s id)) l = l.
Proof.
  induction l as [|x l IH]; simpl; intros H; [reflexivity|].
  destruct (str_eqb_spec x id) as [->|Hne]; simpl; [tauto|].
  rewrite IH; tauto.
Qed.

Lemma filter_neq_perm (id : jsstring) (l : list jsstring) :
  NoDup l -> In id l ->
  Permutation (filter (fun s => negb (str_eqb s id)) l ++ [id]) l.
Proof.
  induction l as [|x l IH]; simpl; intros Hnd Hin; [contradiction|].
  inversion Hnd as [|? ? Hx Hl]; subst.
  destruct (str_eqb_spec x id) as [->|Hne]; simpl.
  - rewrite filter_neq_id by exact Hx.
    apply Permutation_sym, Permutation_cons_append.
  - destruct Hin as [E|Hin]; [congruence|].
    constructor; apply IH; assumption.
Qed.

Lemma NoDup_snoc (id : jsstring) (l : list jsstring) :
  NoDup l -> ~ In id l -> NoDup (l ++ [id]).
Proof.
  intros Hnd Hin.
  apply (Permutation_NoDup (Permutation_cons_append l id)).
  constructor; assumption.
Qed.

(** C8 (amended). On a selection without duplicate ids, one
    [toggleSummarySelection] removes the id when it is present and
    appends it when it is absent, and the selection stays without
    duplicates; two in a row give back the same ids, the toggled id
    moved to the end: the original selection itself when the id was
    absent, a rearrangement of it in general. *)
Theorem toggleSummarySelection_twice :
  forall (prev : list jsstring) (id : jsstring),
    NoDup prev ->
    (In id prev ->
     toggleSummarySelection id prev = filter (fun s => negb (str_eqb s id)) prev
     /\ ~ In id (toggleSummarySelection id prev)
     /\ (forall s, s <> id -> (In s (toggleSummarySelection id prev) <-> In s prev)))
    /\ (~ In id prev -> toggleSummarySelection id prev = prev ++ [id])
    /\ NoDup (toggleSummarySelection id prev)
    /\ toggleSummarySelection id (toggleSummarySelection id prev)
       = (if includes prev id
          then filter (fun s => negb (str_eqb s id)) prev ++ [id]
          else prev)
    /\ (~ In id prev ->
        toggleSummarySelection id (toggleSummarySelection id prev) = prev)
    /\ Permutation (toggleSummarySelection id (toggleSummarySelection id prev)) prev.
Proof.
  intros prev id Hnd.
  assert (Hpresent : In id prev ->
            toggleSummarySelection id prev = filter (fun s => negb (str_eqb s id)) prev).
  { intros Hin; unfold toggleSummarySelection.
    rewrite (proj2 (includes_In prev id) Hin); reflexivity. }
  assert (Habsent : ~ In id prev -> toggleSummarySelection id prev = prev ++ [id]).
  { intros Hin; unfold toggleSummarySelection.
    destruct (includes prev id) eqn:E; [|reflexivity].
    apply includes_In in E; contradiction. }
  assert (Htwice : toggleSummarySelection id (toggleSummarySelection id prev)
                   = (if includes prev id
                      then filter (fun s => negb (str_eqb s id)) prev ++ [id]
                      else prev)).
  { destruct (includes prev id) eqn:E.
    - apply includes_In in E; rewrite (Hpresent E).
      unfold toggleSummarySelection.
      destruct (includes (filter _ prev) id) eqn:E'; [|reflexivity].
      apply includes_In in E'; exfalso; exact (filter_neq_notin _ _ E').
    - assert (Hin : ~ In id prev)
        by (intros Hin; apply includes_In in Hin; congruence).
      rewrite (Habsent Hin); unfold toggleSummarySelection.
      assert (E' : includes (prev ++ [id]) id = true)
        by (apply includes_In, in_or_app; right; left; reflexivity).
      rewrite E', filter_app, filter_neq_id by exact Hin.
      simpl; rewrite str_eqb_refl; simpl; apply app_nil_r. }
  split; [|split; [|split; [|split; [|split]]]].
  - intros Hin; rewrite (Hpresent Hin); split; [reflexivity|]; split.
    + apply filter_neq_notin.
    + intros s Hs; rewrite filter_In; split; [tauto|].
      intros H; split; [exact H|].
      apply negb_true_iff, str_eqb_neq, Hs.
  - exact Habsent.
  - destruct (in_dec (list_eq_dec N.eq_dec) id prev) as [Hin|Hin].
    + rewrite (Hpresent Hin); apply NoDup_filter, Hnd.
    + rewrite (Habsent Hin); apply NoDup_snoc; assumption.
  - exact Htwice.
  - intros Hin; rewrite Htwice.
    destruct (includes prev id) eqn:E; [|reflexivity].
    apply includes_In in E; contradiction.
  - rewrite Htwice; destruct (includes prev id) eqn:E; [|reflexivity].
    apply includes_In in E; apply filter_neq_perm; assumption.
Qed.

Lemma toggleSummarySelection_twice_witness :
  toggleSummarySelection (str "s1")
    (toggleSummarySelection (str "s1") [str "s1"; str "s2"; str "s3"])
  = [str "s2"; str "s3"; str "s1"]
  /\ NoDup (toggleSummarySelection (str "s1") [str "s1"; str "s2"; str "s3"]).
Proof.
  assert (Hnd : NoDup [str "s1"; str "s2"; str "s3"]).
  { repeat constructor; vm_compute; intuition discriminate. }
  destruct (toggleSummarySelection_twice [str "s1"; str "s2"; str "s3"] (str "s1") Hnd)
    as [_ [_ [Hn [Ht _]]]].
  split; [rewrite Ht; reflexivity | exact Hn].
Defined.

(** C8 as stated fails: toggling the first of two selected ids twice
    gives the two ids in the other order, not the original selection. *)
Lemma toggleSummarySelection_involution_counterexample :
  NoDup [str "s1"; str "s2"]
  /\ toggleSummarySelection (str "s1")
       (toggleSummarySelection (str "s1") [str "s1"; str "s2"])
     = [str "s2"; str "s1"]
  /\ toggleSummarySelection (str "s1")
       (toggleSummarySelection (str "s1") [str "s1"; str "s2"])
     <> [str "s1"; str "s2"].
Proof.
  split; [|split].
  - repeat constructor; vm_compute; intuition discriminate.
  - reflexivity.
  - vm_compute; discriminate.
Qed.

(** ** The badges of a summary card *)


(** ** [split], [join] and [trim] *)

Lemma split_nonempty (sep : codeunit) (s : jsstring) : split sep s <> [].
Proof.
  destruct s as [|c s]; simpl; [discriminate|].
  destruct (N.eqb c sep); [discriminate|].
  destruct (split sep s); discriminate.
Qed.

Lemma join_cons_head (sep : jsstring) (c : codeunit) (p : jsstring)
  (ps : list jsstring) :
  join sep ((c :: p) :: ps) = c :: join sep (p :: ps).
Proof. destruct ps; reflexivity. Qed.

(** The pieces of [split], joined with the separator, are the string. *)
Lemma join_split (sep : codeunit) (s : jsstring) :
  join [sep] (split sep s) = s.
Proof.
  induction s as [|c s IH]; simpl; [reflexivity|].
  destruct (N.eqb_spec c sep) as [->|Hne].
  - destruct (split sep s) as [|p ps] eqn:E; [exfalso; exact (split_nonempty _ _ E)|].
    simpl in *; rewrite IH; reflexivity.
  - destruct (split sep s) as [|p ps] eqn:E; [exfalso; exact (split_nonempty _ _ E)|].
    rewrite join_cons_head, IH; reflexivity.
Qed.

Lemma split_no_sep (sep : codeunit) (s : jsstring) :
  Forall (fun p => ~ In sep p) (split sep s).
Proof.
  induction s as [|c s IH]; simpl; [repeat constructor; auto|].
  destruct (N.eqb_spec c sep) as [->|Hne]; [constructor; auto|].
  destruct (split sep s) as [|p ps]; [repeat constructor; simpl; intuition|].
  inversion IH; subst; constructor; [|assumption].
  simpl; intuition.
Qed.

Lemma split_without_sep (sep : codeunit) (t : jsstring) :
  ~ In sep t -> split sep t = [t].
Proof.
  induction t as [|c t IH]; simpl; intros H; [reflexivity|].
  destruct (N.eqb_spec c sep) as [->|Hne]; [tauto|].
  rewrite IH by tauto; reflexivity.
Qed.

Lemma split_app_sep (sep : codeunit) (t s : jsstring) :
  ~ In sep t -> split sep (t ++ sep :: s) = t :: split sep s.
Proof.
  induction t as [|c t IH]; simpl; intros H.
  - rewrite N.eqb_refl; reflexivity.
  - destruct (N.eqb_spec c sep) as [->|Hne]; [tauto|].
    rewrite IH by tauto; reflexivity.
Qed.

(** What the form shows for a list of tags splits back into the tags,
    each but the first behind one space. *)
Lemma split_join_tags (t : jsstring) (rest : list jsstring) :
  ~ In comma t -> Forall (fun x => ~ In comma x) rest ->
  split comma (join (str ", ") (t :: rest)) = t :: map (cons 32%N) rest.
Proof.
  revert t; induction rest as [|u rest IH]; intros t Ht Hrest.
  - simpl; apply split_without_sep, Ht.
  - inversion Hrest as [|? ? Hu Hrest']; subst.
    change (join (str ", ") (t :: u :: rest))
      with (t ++ comma :: 32%N :: join (str ", ") (u :: rest)).
    rewrite split_app_sep by exact Ht.
    rewrite <- join_cons_head, IH; [reflexivity| |assumption].
    simpl; intros [E|H]; [discriminate | exact (Hu H)].
Qed.

Lemma trimStart_fixed (t : jsstring) :
  leading_whitespace t = false -> trimStart t = t.
Proof. destruct t as [|c t]; simpl; [reflexivity|]; intros ->; reflexivity. Qed.

Lemma trim_clean (t : jsstring) :
  leading_whitespace t = false -> trailing_whitespace t = false -> trim t = t.
Proof.
  intros Hl Hr; unfold trim, trimEnd.
  rewrite (trimStart_fixed t Hl), (trimStart_fixed (rev t) Hr).
  apply rev_involutive.
Qed.

Lemma trim_after_space (t : jsstring) : trim (32%N :: t) = trim t.
Proof. reflexivity. Qed.

Lemma trimStart_spec (s : jsstring) :
  exists l, s = l ++ trimStart s
            /\ Forall (fun c => is_white_space c = true) l
            /\ leading_whitespace (trimStart s) = false.
Proof.
  induction s as [|c s [l [E [Hl Hs]]]]; simpl.
  - exists []; repeat split; constructor.
  - destruct (is_white_space c) eqn:W.
    + exists (c :: l); repeat split; [simpl; congruence | constructor; assumption | exact Hs].
    + exists []; repeat split; [constructor | exact W].
Qed.

Lemma leading_whitespace_app (a b : jsstring) :
  leading_whitespace (a ++ b) = false -> leading_whitespace a = false.
Proof. destruct a; simpl; auto. Qed.

(** [trim] removes the whitespace around a string and nothing else. *)
Lemma trim_spec (s : jsstring) : trimmed_of s (trim s).
Proof.
  unfold trimmed_of, trim, trimEnd, trailing_whitespace.
  destruct (trimStart_spec s) as [l [El [Hl Hu]]].
  destruct (trimStart_spec (rev (trimStart s))) as [r [Er [Hr Hv]]].
  set (u := trimStart s) in *; set (v := trimStart (rev u)) in *.
  assert (Eu : u = rev v ++ rev r).
  { rewrite <- rev_app_distr, <- Er; symmetry; apply rev_involutive. }
  exists l, (rev r); repeat split.
  - rewrite <- Eu; exact El.
  - exact Hl.
  - apply Forall_rev, Hr.
  - apply (leading_whitespace_app _ (rev r)); rewrite <- Eu; exact Hu.
  - rewrite rev_involutive; exact Hv.
Qed.

(** ** Running the handlers *)

Ltac js_unfold :=
  unfold try_catch_finally, try_catch;
  cbn [bind ret Monad_Js];
  unfold js_bind, js_ret, rendered, set_state, emit, API, axios_get, axios_post,
    axios_put, axios_delete, axios, await, Promise_all2, Promise_all3,
    toast_success, toast_error, console_error, navigate, confirm;
  cbn beta iota zeta.

Ltac fold_api :=
  repeat match goal with
    | |- context [(BACKEND_URL ?e ++ str "/api") ++ ?p] =>
        change ((BACKEND_URL e ++ str "/api") ++ p) with (api e p)
    end.

Ltac js_run := repeat progress js_unfold; fold_api.

Ltac js_norm := rewrite <- ?app_assoc; cbn [app].

(** Case analysis on the answer of the backend to the next request. *)
Ltac js_answer :=
  match goal with
  | |- context [backend ?e ?k ?t ?r] =>
      destruct (backend e k t r); js_run
  end.

Lemma fetchSources_run env st tr :
  Sources.fetchSources env st tr
  = match backend env KSources tr (GET_sources env) with
    | Some response =>
        (Normal tt, Sources.setLoading false (Sources.setSources response st),
         tr ++ [Request (GET_sources env)])
    | None =>
        (Normal tt, Sources.setLoading false st,
         tr ++ [Request (GET_sources env);
                ConsoleError "Error fetching sources:" (RequestFailed (GET_sources env));
                ToastError "Erreur lors du chargement des sources"])
    end.
Proof.
  unfold Sources.fetchSources, GET_sources; js_run.
  js_answer; js_norm; reflexivity.
Qed.

Lemma Sources_handleSubmit_run env st tr :
  Sources.handleSubmit env st tr
  = match backend env KIgnored (tr ++ [PreventDefault]) (submit_request env st) with
    | Some _ =>
        Sources.fetchSources env
          (Sources.setEditingSource None
             (Sources.setFormData Sources.emptyForm
                (Sources.setDialogOpen false st)))
          (tr ++ [PreventDefault; Request (submit_request env st);
                  ToastSuccess (match Sources.editingSource st with
                                | Some _ => "Source mise à jour"
                                | None => "Source ajoutée"
                                end)])
    | None =>
        (Normal tt, st,
         tr ++ [PreventDefault; Request (submit_request env st);
                ConsoleError "Error saving source:" (RequestFailed (submit_request env st));
                ToastError "Erreur lors de l'enregistrement"])
    end.
Proof.
  unfold Sources.handleSubmit, submit_request, PUT_source, POST_sources; js_run.
  destruct (Sources.editingSource st) as [editing|]; js_run;
    js_answer; js_norm; try reflexivity;
    rewrite fetchSources_run; destruct (backend _ _ _ _); reflexivity.
Qed.

Lemma handleDelete_run env st tr id :
  Sources.handleDelete id env st tr
  = if window_confirm env "Êtes-vous sûr de vouloir supprimer cette source ?"
    then
      match backend env KIgnored tr (DELETE_source env id) with
      | Some _ =>
          Sources.fetchSources env st
            (tr ++ [Request (DELETE_source env id); ToastSuccess "Source supprimée"])
      | None =>
          (Normal tt, st,
           tr ++ [Request (DELETE_source env id);
                  ConsoleError "Error deleting source:" (RequestFailed (DELETE_source env id));
                  ToastError "Erreur lors de la suppression"])
      end
    else (Normal tt, st, tr).
Proof.
  unfold Sources.handleDelete, DELETE_source; js_run.
  destruct (window_confirm env _); cbn [negb]; js_run; [|reflexivity].
  js_answer; js_norm; try reflexivity.
  rewrite fetchSources_run; destruct (backend _ _ _ _); reflexivity.
Qed.

Lemma handleToggle_run env st tr id :
  Sources.handleToggle id env st tr
  = match backend env KIgnored tr (POST_source_toggle env id) with
    | Some _ =>
        Sources.fetchSources env st
          (tr ++ [Request (POST_source_toggle env id); ToastSuccess "Statut mis à jour"])
    | None =>
        (Normal tt, st,
         tr ++ [Request (POST_source_toggle env id);
                ConsoleError "Error toggling source:" (RequestFailed (POST_source_toggle env id));
                ToastError "Erreur lors de la mise à jour"])
    end.
Proof.
  unfold Sources.handleToggle, POST_source_toggle; js_run.
  js_answer; js_norm; try reflexivity.
  rewrite fetchSources_run; destruct (backend _ _ _ _); reflexivity.
Qed.

Lemma Dashboard_fetchData_run env st tr :
  Dashboard.fetchData env st tr
  = match backend env KStats tr (GET_stats env),
          backend env KSummaries (tr ++ [Request (GET_stats env)])
            (GET_recent_summaries env) with
    | Some statsRes, Some summariesRes =>
        (Normal tt,
         Dashboard.setLoading false
           (Dashboard.setRecentSummaries (firstn 6 summariesRes)
              (Dashboard.setStats (Some statsRes) st)),
         tr ++ [Request (GET_stats env); Request (GET_recent_summaries env)])
    | None, _ =>
        (Normal tt, Dashboard.setLoading false st,
         tr ++ [Request (GET_stats env); Request (GET_recent_summaries env);
                ConsoleError "Error fetching dashboard data:"
                  (RequestFailed (GET_stats env));
                ToastError "Erreur lors du chargement des données"])
    | Some _, None =>
        (Normal tt, Dashboard.setLoading false st,
         tr ++ [Request (GET_stats env); Request (GET_recent_summaries env);
                ConsoleError "Error fetching dashboard data:"
                  (RequestFailed (GET_recent_summaries env));
                ToastError "Erreur lors du chargement des données"])
    end.
Proof.
  unfold Dashboard.fetchData, GET_stats, GET_recent_summaries; js_run.
  repeat (js_answer; js_norm); reflexivity.
Qed.

Lemma Summaries_fetchData_run env st tr :
  Summaries.fetchData env st tr
  = match backend env KSummaries tr (GET_summaries env),
          backend env KStrings (tr ++ [Request (GET_summaries env)])
            (GET_categories env),
          backend env KStrings
            (tr ++ [Request (GET_summaries env); Request (GET_categories env)])
            (GET_tags env) with
    | Some summariesRes, Some categoriesRes, Some tagsRes =>
        (Normal tt,
         Summaries.setLoading false
           (Summaries.setTags tagsRes
              (Summaries.setCategories categoriesRes
                 (Summaries.setSummaries summariesRes st))),
         tr ++ [Request (GET_summaries env); Request (GET_categories env);
                Request (GET_tags env)])
    | a, b, _ =>
        (Normal tt, Summaries.setLoading false st,
         tr ++ [Request (GET_summaries env); Request (GET_categories env);
                Request (GET_tags env);
                ConsoleError "Error fetching data:"
                  (RequestFailed
                     match a, b with
                     | None, _ => GET_summaries env
                     | Some _, None => GET_categories env
                     | Some _, Some _ => GET_tags env
                     end);
                ToastError "Erreur lors du chargement"])
    end.
Proof.
  unfold Summaries.fetchData, GET_summaries, GET_categories, GET_tags; js_run.
  js_norm; repeat (js_answer; js_norm); reflexivity.
Qed.

Lemma handleCompileArticle_run env st tr :
  Summaries.handleCompileArticle env st tr
  = if (List.length (Summaries.selectedForArticle st) <? 2)%nat
    then
      (Normal tt, st,
       tr ++ [PreventDefault;
              ToastError "Veuillez sélectionner au moins 2 résumés pour compiler un article"])
    else
      match backend env KArticle (tr ++ [PreventDefault]) (compile_request env st) with
      | Some response =>
          (Normal tt,
           Summaries.setCompilingArticle false
             (Summaries.setSelectedForArticle []
                (Summaries.setArticleFormData
                   (Summaries.mkArticleFormData (str "") (str ""))
                   (Summaries.setShowCompileDialog false
                      (Summaries.setCompilingArticle true st)))),
           tr ++ [PreventDefault; Request (compile_request env st);
                  ToastSuccess "Article compilé avec succès !";
                  Navigate (str "/articles/" ++ Article.id response)])
      | None =>
          (Normal tt,
           Summaries.setCompilingArticle false (Summaries.setCompilingArticle true st),
           tr ++ [PreventDefault; Request (compile_request env st);
                  ConsoleError "Error compiling article:"
                    (RequestFailed (compile_request env st));
                  ToastError "Erreur lors de la compilation de l'article"])
      end.
Proof.
  unfold Summaries.handleCompileArticle, compile_request, POST_articles; js_run.
  destruct (List.length (Summaries.selectedForArticle st) <? 2)%nat; js_run.
  - js_norm; reflexivity.
  - js_answer; js_norm; reflexivity.
Qed.

Lemma onClick_deleteSummary_run env st tr summary :
  Summaries.onClick_deleteSummary summary env st tr
  = if window_confirm env "Êtes-vous sûr de vouloir supprimer ce résumé ?"
    then
      match backend env KIgnored (tr ++ [StopPropagation])
              (DELETE_summary env (Summary.id summary)) with
      | Some _ =>
          Summaries.fetchData env st
            (tr ++ [StopPropagation;
                    Request (DELETE_summary env (Summary.id summary));
                    ToastSuccess "Résumé supprimé"])
      | None =>
          (Normal tt, st,
           tr ++ [StopPropagation;
                  Request (DELETE_summary env (Summary.id summary));
                  ConsoleError "Error deleting summary:"
                    (RequestFailed (DELETE_summary env (Summary.id summary)));
                  ToastError "Erreur lors de la suppression"])
      end
    else (Normal tt, st, tr ++ [StopPropagation]).
Proof.
  unfold Summaries.onClick_deleteSummary, DELETE_summary; js_run.
  destruct (window_confirm env _); js_run; [|reflexivity].
  js_answer; js_norm; try reflexivity.
  rewrite Summaries_fetchData_run; repeat js_answer; reflexivity.
Qed.

Lemma fetchSummary_run env st tr :
  SummaryDetail.fetchSummary env st tr
  = match backend env KSummary tr (GET_summary env (SummaryDetail.id st)) with
    | Some response =>
        if Summary.is_new response
        then
          match backend env KIgnored
                  (tr ++ [Request (GET_summary env (SummaryDetail.id st))])
                  (POST_mark_read env (SummaryDetail.id st)) with
          | Some _ =>
              (Normal tt,
               SummaryDetail.setLoading false
                 (SummaryDetail.setSummary (Some response) st),
               tr ++ [Request (GET_summary env (SummaryDetail.id st));
                      Request (POST_mark_read env (SummaryDetail.id st))])
          | None =>
              (Normal tt,
               SummaryDetail.setLoading false
                 (SummaryDetail.setSummary (Some response) st),
               tr ++ [Request (GET_summary env (SummaryDetail.id st));
                      Request (POST_mark_read env (SummaryDetail.id st));
                      ConsoleError "Error fetching summary:"
                        (RequestFailed (POST_mark_read env (SummaryDetail.id st)));
                      ToastError "Erreur lors du chargement"])
          end
        else
          (Normal tt,
           SummaryDetail.setLoading false
             (SummaryDetail.setSummary (Some response) st),
           tr ++ [Request (GET_summary env (SummaryDetail.id st))])
    | None =>
        (Normal tt, SummaryDetail.setLoading false st,
         tr ++ [Request (GET_summary env (SummaryDetail.id st));
                ConsoleError "Error fetching summary:"
                  (RequestFailed (GET_summary env (SummaryDetail.id st)));
                ToastError "Erreur lors du chargement"])
    end.
Proof.
  unfold SummaryDetail.fetchSummary, GET_summary, POST_mark_read; js_run.
  js_answer; js_norm; [|reflexivity].
  destruct (Summary.is_new _); js_run; [|reflexivity].
  js_answer; js_norm; reflexivity.
Qed.

Lemma SingleUrl_handleSubmit_run env st tr :
  SingleUrl.handleSubmit env st tr
  = match backend env KUrlResult (tr ++ [PreventDefault])
            (POST_process_url env
               (ProcessUrlPayload (SingleUrl.url st) (SingleUrl.saveOption st))) with
    | Some response =>
        (Normal tt,
         SingleUrl.setLoading false
           (SingleUrl.setResult (Some response)
              (SingleUrl.setResult None (SingleUrl.setLoading true st))),
         tr ++ [PreventDefault;
                Request (POST_process_url env
                           (ProcessUrlPayload (SingleUrl.url st) (SingleUrl.saveOption st)));
                ToastSuccess "Résumé généré avec succès"])
    | None =>
        (Normal tt,
         SingleUrl.setLoading false
           (SingleUrl.setResult None (SingleUrl.setLoading true st)),
         tr ++ [PreventDefault;
                Request (POST_process_url env
                           (ProcessUrlPayload (SingleUrl.url st) (SingleUrl.saveOption st)));
                ConsoleError "Error processing URL:"
                  (RequestFailed
                     (POST_process_url env
                        (ProcessUrlPayload (SingleUrl.url st) (SingleUrl.saveOption st))));
                ToastError "Erreur lors du traitement de l'URL"])
    end.
Proof.
  unfold SingleUrl.handleSubmit, POST_process_url; js_run.
  js_answer; js_norm; reflexivity.
Qed.

Lemma Articles_fetchData_run env st tr :
  Articles.fetchData env st tr
  = match backend env KArticles tr (GET_articles env) with
    | Some articlesRes =>
        (Normal tt, Articles.setLoading false (Articles.setArticles articlesRes st),
         tr ++ [Request (GET_articles env)])
    | None =>
        (Normal tt, Articles.setLoading false st,
         tr ++ [Request (GET_articles env);
                ConsoleError "Error fetching data:" (RequestFailed (GET_articles env));
                ToastError "Erreur lors du chargement"])
    end.
Proof.
  unfold Articles.fetchData, GET_articles; js_run.
  js_answer; js_norm; reflexivity.
Qed.

Lemma onClick_deleteArticle_run env st tr article :
  Articles.onClick_deleteArticle article env st tr
  = if window_confirm env "Êtes-vous sûr de vouloir supprimer cet article ?"
    then
      match backend env KIgnored (tr ++ [StopPropagation])
              (DELETE_article env (Article.id article)) with
      | Some _ =>
          Articles.fetchData env st
            (tr ++ [StopPropagation;
                    Request (DELETE_article env (Article.id article));
                    ToastSuccess "Article supprimé"])
      | None =>
          (Normal tt, st,
           tr ++ [StopPropagation;
                  Request (DELETE_article env (Article.id article));
                  ConsoleError "Error deleting article:"
                    (RequestFailed (DELETE_article env (Article.id article)));
                  ToastError "Erreur lors de la suppression"])
      end
    else (Normal tt, st, tr ++ [StopPropagation]).
Proof.
  unfold Articles.onClick_deleteArticle, DELETE_article; js_run.
  destruct (window_confirm env _); js_run; [|reflexivity].
  js_answer; js_norm; try reflexivity.
  rewrite Articles_fetchData_run; destruct (backend _ _ _ _); reflexivity.
Qed.

Lemma fetchArticle_run env st tr :
  ArticleDetail.fetchArticle env st tr
  = match backend env KArticle tr (GET_article env (ArticleDetail.id st)) with
    | Some response =>
        (Normal tt,
         ArticleDetail.setLoading false (ArticleDetail.setArticle (Some response) st),
         tr ++ [Request (GET_article env (ArticleDetail.id st))])
    | None =>
        (Normal tt, ArticleDetail.setLoading false st,
         tr ++ [Request (GET_article env (ArticleDetail.id st));
                ConsoleError "Error fetching article:"
                  (RequestFailed (GET_article env (ArticleDetail.id st)));
                ToastError "Erreur lors du chargement"])
    end.
Proof.
  unfold ArticleDetail.fetchArticle, GET_article; js_run.
  js_answer; js_norm; reflexivity.
Qed.

(** ** Compiling an article *)

(** C3. [handleCompileArticle] sends [POST /api/articles] with the
    payload of title, theme and the selected ids exactly when at least
    two summaries are selected, and sends nothing else; with fewer than
    two it shows an error toast and leaves the whole state, selection,
    form and dialog included, as it was. *)
Theorem handleCompileArticle_needs_two :
  forall env st tr,
    exists st' evs,
      Summaries.handleCompileArticle env st tr = (Normal tt, st', tr ++ evs)
      /\ requests_of evs
         = (if (2 <=? List.length (Summaries.selectedForArticle st))%nat
            then [mkRequest POST (api env (str "/articles"))
                    (Some (ArticlePayload
                             (Summaries.title (Summaries.articleFormData st))
                             (Summaries.theme (Summaries.articleFormData st))
                             (Summaries.selectedForArticle st)))]
            else [])
      /\ ((List.length (Summaries.selectedForArticle st) < 2)%nat ->
          st' = st
          /\ exists msg, evs = [PreventDefault; ToastError msg]).
Proof.
  intros env st tr; rewrite handleCompileArticle_run.
  destruct (Nat.ltb_spec (List.length (Summaries.selectedForArticle st)) 2) as [Hlt|Hge].
  - assert (E : (2 <=? List.length (Summaries.selectedForArticle st))%nat = false)
      by (apply Nat.leb_gt; exact Hlt).
    rewrite E; do 2 eexists; split; [reflexivity|]; split; [reflexivity|].
    intros _; split; [reflexivity | eexists; reflexivity].
  - assert (E : (2 <=? List.length (Summaries.selectedForArticle st))%nat = true)
      by (apply Nat.leb_le; exact Hge).
    rewrite E; destruct (backend _ _ _ _); do 2 eexists;
      (split; [reflexivity|]; split; [reflexivity|]; intros Hlt; lia).
Qed.

Lemma handleCompileArticle_needs_two_witness :
  exists st' evs,
    Summaries.handleCompileArticle offline
      (Summaries.mkState [] [] false [] [] (str "all") (str "all")
         (str "chronological") [str "s1"] false true
         (Summaries.mkArticleFormData (str "T") (str "th")))
      []
    = (Normal tt, st', evs)
    /\ st' = Summaries.mkState [] [] false [] [] (str "all") (str "all")
               (str "chronological") [str "s1"] false true
               (Summaries.mkArticleFormData (str "T") (str "th"))
    /\ requests_of evs = [].
Proof.
  destruct (handleCompileArticle_needs_two offline
              (Summaries.mkState [] [] false [] [] (str "all") (str "all")
                 (str "chronological") [str "s1"] false true
                 (Summaries.mkArticleFormData (str "T") (str "th"))) [])
    as [st' [evs [Hrun [Hreq Hfew]]]].
  exists st', evs; split; [exact Hrun|]; split; [|exact Hreq].
  apply Hfew; simpl; lia.
Defined.

(** ** The summary detail *)

(** C9. [fetchSummary] issues [GET /api/summaries/{id}] and then
    [POST /api/summaries/{id}/mark-read] exactly when the fetch
    succeeded and the fetched summary has [is_new] set; a summary that
    is not new and a failed fetch bring no further request. *)
Theorem fetchSummary_marks_read_iff_new :
  forall env st tr,
    exists st' evs,
      SummaryDetail.fetchSummary env st tr = (Normal tt, st', tr ++ evs)
      /\ requests_of evs
         = mkRequest GET (api env (str "/summaries/" ++ SummaryDetail.id st)) None
           :: match backend env KSummary tr
                      (mkRequest GET (api env (str "/summaries/" ++ SummaryDetail.id st)) None)
              with
              | Some response =>
                  if Summary.is_new response
                  then [mkRequest POST
                          (api env (str "/summaries/" ++ SummaryDetail.id st
                                    ++ str "/mark-read")) None]
                  else []
              | None => []
              end.
Proof.
  intros env st tr; rewrite fetchSummary_run; unfold GET_summary, POST_mark_read.
  destruct (backend env KSummary tr _) as [response|].
  - destruct (Summary.is_new response); [destruct (backend _ _ _ _)|];
      do 2 eexists; split; reflexivity.
  - do 2 eexists; split; reflexivity.
Qed.

(** ** The source form *)

Lemma payload_tags_spec (field : jsstring) :
  exists pieces,
    join (str ",") pieces = field
    /\ Forall (fun p => ~ In comma p) pieces
    /\ Forall2 trimmed_of pieces (map trim (split comma field)).
Proof.
  exists (split comma field); split; [apply join_split|].
  split; [apply split_no_sep|].
  induction (split comma field) as [|p ps IH]; simpl; constructor;
    [apply trim_spec | exact IH].
Qed.

(** C5 (amended). Submitting the source form sends one request with the
    payload of name, url, category and tags: the category is [null]
    when the field is empty, the tags are the pieces of the field
    between its commas, each without its surrounding whitespace, and
    the empty list when the field is empty, not when it is merely
    blank; the request is [POST /api/sources] when no
    source is being edited and [PUT /api/sources/{id}] otherwise, and
    the only other request the handler may issue is the refetch
    [GET /api/sources]. *)
Theorem handleSubmit_sends_form :
  forall env st tr,
    exists c st' rest tags_sent,
      Sources.handleSubmit env st tr
      = (c, st',
         tr ++ PreventDefault
            :: Request
                 (mkRequest
                    (match Sources.editingSource st with
                     | Some _ => PUT
                     | None => POST
                     end)
                    (match Sources.editingSource st with
                     | Some editing => api env (str "/sources/" ++ Source.id editing)
                     | None => api env (str "/sources")
                     end)
                    (Some (SourcePayload
                             (Sources.name (Sources.formData st))
                             (Sources.url (Sources.formData st))
                             (if str_eqb (Sources.category (Sources.formData st)) (str "")
                              then Null
                              else Val (Sources.category (Sources.formData st)))
                             tags_sent)))
            :: rest)
      /\ (Sources.tags (Sources.formData st) = str "" -> tags_sent = [])
      /\ (Sources.tags (Sources.formData st) <> str "" ->
          exists pieces,
            join (str ",") pieces = Sources.tags (Sources.formData st)
            /\ Forall (fun p => ~ In comma p) pieces
            /\ Forall2 trimmed_of pieces tags_sent)
      /\ (forall r, In r (requests_of rest) ->
                    r = mkRequest GET (api env (str "/sources")) None).
Proof.
  intros env st tr; rewrite Sources_handleSubmit_run.
  set (form := Sources.formData st).
  assert (Ereq : submit_request env st
                 = mkRequest
                     (match Sources.editingSource st with Some _ => PUT | None => POST end)
                     (match Sources.editingSource st with
                      | Some editing => api env (str "/sources/" ++ Source.id editing)
                      | None => api env (str "/sources")
                      end)
                     (Some (SourcePayload (Sources.name form) (Sources.url form)
                              (if str_eqb (Sources.category form) (str "")
                               then Null else Val (Sources.category form))
                              (if truthy_str (Sources.tags form)
                               then map trim (split comma (Sources.tags form))
                               else [])))).
  { unfold submit_request, PUT_source, POST_sources, Sources.payload, or_null.
    fold form; destruct (Sources.editingSource st), (Sources.category form); reflexivity. }
  rewrite Ereq; clear Ereq.
  assert (Htags :
    (Sources.tags form = str "" ->
     (if truthy_str (Sources.tags form)
      then map trim (split comma (Sources.tags form)) else []) = [])
    /\ (Sources.tags form <> str "" ->
        exists pieces,
          join (str ",") pieces = Sources.tags form
          /\ Forall (fun p => ~ In comma p) pieces
          /\ Forall2 trimmed_of pieces
               (if truthy_str (Sources.tags form)
                then map trim (split comma (Sources.tags form)) else []))).
  { split.
    - intros ->; reflexivity.
    - intros Hne; destruct (Sources.tags form) as [|c field] eqn:E;
        [exfalso; apply Hne; reflexivity|].
      simpl truthy_str; cbv iota; rewrite <- E; apply payload_tags_spec. }
  destruct Htags as [Hempty Hpieces].
  destruct (backend env KIgnored _ _).
  - rewrite fetchSources_run; destruct (backend env KSources _ _);
      do 4 eexists; (split; [js_norm; reflexivity|]);
      (split; [exact Hempty|]); (split; [exact Hpieces|]);
      simpl; unfold GET_sources; intuition.
  - do 4 eexists; (split; [js_norm; reflexivity|]);
      (split; [exact Hempty|]); (split; [exact Hpieces|]);
      simpl; intuition.
Qed.

(** C5 as stated fails: a tags field of two spaces is blank, yet the
    payload sent carries one tag, the empty string, not the empty
    list. *)
Lemma handleSubmit_blank_tags_counterexample :
  Forall (fun c => is_white_space c = true) (str "  ")
  /\ requests_of
       (snd (Sources.handleSubmit offline
               (Sources.mkState [] false true None
                  (Sources.mkFormData (str "Blog") (str "https://example.org/feed")
                     (str "") (str "  ")))
               []))
     = [mkRequest POST (api offline (str "/sources"))
          (Some (SourcePayload (str "Blog") (str "https://example.org/feed")
                   Null [str ""]))]
  /\ [str ""] <> (@nil jsstring).
Proof.
  split; [|split].
  - repeat constructor.
  - reflexivity.
  - discriminate.
Qed.

(** A tags field of spaces only is not empty: it gives one tag, the
    empty string. *)
Lemma payload_of_spaces_field :
  Sources.payload (Sources.mkFormData (str "n") (str "u") (str "") (str "  "))
  = SourcePayload (str "n") (str "u") Null [str ""].
Proof. reflexivity. Qed.

(** ** Editing a source *)

Lemma category_roundtrip (c : nullable jsstring) :
  or_null (or_empty c)
  = match c with
    | Val s => if truthy_str s then Val s else Null
    | _ => Null
    end.
Proof.
  destruct c as [| |s]; try reflexivity.
  unfold or_empty, or_null; destruct s; reflexivity.
Qed.

Lemma truthy_join_tags (tags : list jsstring) :
  tags <> [] -> tags <> [str ""] -> truthy_str (join (str ", ") tags) = true.
Proof.
  destruct tags as [|t [|u rest]]; intros H0 H1; [congruence| |].
  - destruct t; [exfalso; apply H1; reflexivity | reflexivity].
  - change (join (str ", ") (t :: u :: rest))
      with (t ++ comma :: 32%N :: join (str ", ") (u :: rest)).
    destruct t; reflexivity.
Qed.

Lemma tags_roundtrip (tags : list jsstring) :
  Forall clean_tag tags -> tags <> [str ""] ->
  (if truthy_str (join (str ", ") tags)
   then map trim (split comma (join (str ", ") tags))
   else []) = tags.
Proof.
  intros Hclean Hne; destruct tags as [|t rest]; [reflexivity|].
  rewrite truthy_join_tags by (assumption || discriminate).
  inversion Hclean as [|? ? [Hc [Hl Hr]] Hrest]; subst.
  rewrite split_join_tags;
    [|exact Hc | eapply Forall_impl; [|exact Hrest]; intros a [Ha _]; exact Ha].
  simpl; rewrite (trim_clean t Hl Hr); f_equal.
  clear -Hrest; induction Hrest as [|u rest [_ [Hl Hr]] _ IH]; simpl; [reflexivity|].
  rewrite trim_after_space, (trim_clean u Hl Hr), IH; reflexivity.
Qed.

Lemma edit_then_submit_run env st tr source :
  edit_then_submit source env st tr
  = Sources.handleSubmit env
      (Sources.setDialogOpen true
         (Sources.setFormData
            (Sources.mkFormData (Source.name source) (Source.url source)
               (or_empty (Source.category source))
               (join (str ", ") (Source.tags source)))
            (Sources.setEditingSource (Some source) st)))
      tr.
Proof. reflexivity. Qed.

(** C10 (amended). Editing a source round-trips, but for the list of
    one empty tag: for every source whose tags contain no comma and no
    leading or trailing whitespace and are not the single tag [""],
    opening the edit dialog and submitting the form as it is sends
    [PUT /api/sources/{id}] with the name, the url and the tags of the
    source, and with its category, [null] standing for a category that
    is missing or empty. *)
Theorem edit_then_submit_roundtrip :
  forall env st tr source,
    Forall clean_tag (Source.tags source) ->
    Source.tags source <> [str ""] ->
    exists c st' rest,
      edit_then_submit source env st tr
      = (c, st',
         tr ++ PreventDefault
            :: Request
                 (mkRequest PUT (api env (str "/sources/" ++ Source.id source))
                    (Some (SourcePayload
                             (Source.name source)
                             (Source.url source)
                             (match Source.category source with
                              | Val s => if truthy_str s then Val s else Null
                              | _ => Null
                              end)
                             (Source.tags source))))
            :: rest).
Proof.
  intros env st tr source Hclean Hne.
  rewrite edit_then_submit_run, Sources_handleSubmit_run.
  unfold submit_request, PUT_source, Sources.payload; cbn [Sources.editingSource
    Sources.formData Sources.setDialogOpen Sources.setFormData
    Sources.setEditingSource Sources.name Sources.url Sources.category Sources.tags].
  rewrite category_roundtrip, (tags_roundtrip _ Hclean Hne).
  destruct (backend env KIgnored _ _).
  - rewrite fetchSources_run; destruct (backend env KSources _ _);
      do 3 eexists; js_norm; reflexivity.
  - do 3 eexists; js_norm; reflexivity.
Qed.

Lemma edit_then_submit_roundtrip_witness :
  exists c st' rest,
    edit_then_submit sourceWithTags offline closedDialog []
    = (c, st',
       PreventDefault
       :: Request
            (mkRequest PUT (api offline (str "/sources/7"))
               (Some (SourcePayload (str "Lab") (str "https://example.org/lab") Null
                        [str "GPT"; str "Open Source"; str ""])))
       :: rest).
Proof.
  apply (edit_then_submit_roundtrip offline closedDialog [] sourceWithTags).
  - repeat constructor; vm_compute; intuition discriminate.
  - discriminate.
Defined.

(** C10 as stated fails: a source whose only tag is the empty string
    has tags without comma or surrounding whitespace, yet the form
    shows an empty field for it and the payload carries no tag. *)
Lemma edit_then_submit_roundtrip_counterexample :
  Forall clean_tag (Source.tags sourceWithEmptyTag)
  /\ requests_of (snd (edit_then_submit sourceWithEmptyTag offline closedDialog []))
     = [mkRequest PUT (api offline (str "/sources/42"))
          (Some (SourcePayload (str "Blog") (str "https://example.org/feed")
                   (Val (str "LLMs")) []))]
  /\ Source.tags sourceWithEmptyTag <> [].
Proof.
  split; [|split].
  - repeat constructor; vm_compute; intuition discriminate.
  - reflexivity.
  - discriminate.
Qed.

(** ** Rejected requests *)

(** C4. Every operation that issues a request catches its rejection:
    the handler completes normally, shows one toast, an error, issues
    no request beyond the ones of the operation, and leaves the data of
    its view (the lists, the selection, the form contents) as they
    were.  The operations are the fetches of the seven views, the
    creation or update, the deletion and the toggle of a source, the
    deletion of a summary and of an article, the compilation of an
    article and the processing of a URL; last, the marking as read
    that follows the fetch of a new summary, whose rejection is caught
    the same way once the fetched summary is shown. *)
Theorem rejected_request_reported :
  (forall env st tr,
      backend env KStats tr (GET_stats env) = None
      \/ backend env KSummaries (tr ++ [Request (GET_stats env)])
           (GET_recent_summaries env) = None ->
      reports_failure Dashboard_data Dashboard.fetchData env st tr
        [GET_stats env; GET_recent_summaries env])
  /\ (forall env st tr,
         backend env KSources tr (GET_sources env) = None ->
         reports_failure Sources_data Sources.fetchSources env st tr
           [GET_sources env])
  /\ (forall env st tr,
         backend env KIgnored (tr ++ [PreventDefault]) (submit_request env st) = None ->
         reports_failure (fun st => st) Sources.handleSubmit env st tr
           [submit_request env st])
  /\ (forall env st tr id,
         window_confirm env "Êtes-vous sûr de vouloir supprimer cette source ?" = true ->
         backend env KIgnored tr (DELETE_source env id) = None ->
         reports_failure (fun st => st) (Sources.handleDelete id) env st tr
           [DELETE_source env id])
  /\ (forall env st tr id,
         backend env KIgnored tr (POST_source_toggle env id) = None ->
         reports_failure (fun st => st) (Sources.handleToggle id) env st tr
           [POST_source_toggle env id])
  /\ (forall env st tr,
         backend env KSummaries tr (GET_summaries env) = None
         \/ backend env KStrings (tr ++ [Request (GET_summaries env)])
              (GET_categories env) = None
         \/ backend env KStrings
              (tr ++ [Request (GET_summaries env); Request (GET_categories env)])
              (GET_tags env) = None ->
         reports_failure Summaries_data Summaries.fetchData env st tr
           [GET_summaries env; GET_categories env; GET_tags env])
  /\ (forall env st tr,
         (2 <= List.length (Summaries.selectedForArticle st))%nat ->
         backend env KArticle (tr ++ [PreventDefault]) (compile_request env st) = None ->
         reports_failure Summaries_data Summaries.handleCompileArticle env st tr
           [compile_request env st])
  /\ (forall env st tr summary,
         window_confirm env "Êtes-vous sûr de vouloir supprimer ce résumé ?" = true ->
         backend env KIgnored (tr ++ [StopPropagation])
           (DELETE_summary env (Summary.id summary)) = None ->
         reports_failure (fun st => st) (Summaries.onClick_deleteSummary summary)
           env st tr [DELETE_summary env (Summary.id summary)])
  /\ (forall env st tr,
         backend env KSummary tr (GET_summary env (SummaryDetail.id st)) = None ->
         reports_failure SummaryDetail_data SummaryDetail.fetchSummary env st tr
           [GET_summary env (SummaryDetail.id st)])
  /\ (forall env st tr,
         backend env KUrlResult (tr ++ [PreventDefault])
           (POST_process_url env
              (ProcessUrlPayload (SingleUrl.url st) (SingleUrl.saveOption st))) = None ->
         reports_failure SingleUrl_form SingleUrl.handleSubmit env st tr
           [POST_process_url env
              (ProcessUrlPayload (SingleUrl.url st) (SingleUrl.saveOption st))])
  /\ (forall env st tr,
         backend env KArticles tr (GET_articles env) = None ->
         reports_failure Articles_data Articles.fetchData env st tr
           [GET_articles env])
  /\ (forall env st tr article,
         window_confirm env "Êtes-vous sûr de vouloir supprimer cet article ?" = true ->
         backend env KIgnored (tr ++ [StopPropagation])
           (DELETE_article env (Article.id article)) = None ->
         reports_failure (fun st => st) (Articles.onClick_deleteArticle article)
           env st tr [DELETE_article env (Article.id article)])
  /\ (forall env st tr,
         backend env KArticle tr (GET_article env (ArticleDetail.id st)) = None ->
         reports_failure ArticleDetail_data ArticleDetail.fetchArticle env st tr
           [GET_article env (ArticleDetail.id st)])
  /\ (forall env st tr response,
         backend env KSummary tr (GET_summary env (SummaryDetail.id st))
         = Some response ->
         Summary.is_new response = true ->
         backend env KIgnored (tr ++ [Request (GET_summary env (SummaryDetail.id st))])
           (POST_mark_read env (SummaryDetail.id st)) = None ->
         reports_failure SummaryDetail.id SummaryDetail.fetchSummary env st tr
           [GET_summary env (SummaryDetail.id st);
            POST_mark_read env (SummaryDetail.id st)]).
Proof.
  unfold reports_failure.
  repeat match goal with |- _ /\ _ => split end.
  - intros env st tr H; rewrite Dashboard_fetchData_run.
    destruct (backend env KStats tr _);
      [destruct (backend env KSummaries _ _);
       [destruct H; discriminate|]|];
      do 3 eexists; repeat split; reflexivity.
  - intros env st tr H; rewrite fetchSources_run, H.
    do 3 eexists; repeat split; reflexivity.
  - intros env st tr H; rewrite Sources_handleSubmit_run, H.
    do 3 eexists; repeat split; reflexivity.
  - intros env st tr id Hc H; rewrite handleDelete_run, Hc, H.
    do 3 eexists; repeat split; reflexivity.
  - intros env st tr id H; rewrite handleToggle_run, H.
    do 3 eexists; repeat split; reflexivity.
  - intros env st tr H; rewrite Summaries_fetchData_run.
    destruct (backend env KSummaries tr _);
      [destruct (backend env KStrings (tr ++ [_]) _);
       [destruct (backend env KStrings (tr ++ [_; _]) _);
        [destruct H as [H|[H|H]]; discriminate|]|]|];
      do 3 eexists; repeat split; reflexivity.
  - intros env st tr Hlen H; rewrite handleCompileArticle_run, H.
    apply Nat.ltb_ge in Hlen; rewrite Hlen.
    do 3 eexists; repeat split; reflexivity.
  - intros env st tr summary Hc H; rewrite onClick_deleteSummary_run, Hc, H.
    do 3 eexists; repeat split; reflexivity.
  - intros env st tr H; rewrite fetchSummary_run, H.
    do 3 eexists; repeat split; reflexivity.
  - intros env st tr H; rewrite SingleUrl_handleSubmit_run, H.
    do 3 eexists; repeat split; reflexivity.
  - intros env st tr H; rewrite Articles_fetchData_run, H.
    do 3 eexists; repeat split; reflexivity.
  - intros env st tr article Hc H; rewrite onClick_deleteArticle_run, Hc, H.
    do 3 eexists; repeat split; reflexivity.
  - intros env st tr H; rewrite fetchArticle_run, H.
    do 3 eexists; repeat split; reflexivity.
  - intros env st tr response Hget Hnew H; rewrite fetchSummary_run, Hget, Hnew, H.
    do 3 eexists; repeat split; reflexivity.
Qed.

Lemma rejected_request_reported_witness :
  reports_failure (fun st => st) (Sources.handleToggle (str "42")) offline
    closedDialog [] [POST_source_toggle offline (str "42")]
  /\ reports_failure Sources_data Sources.fetchSources offline closedDialog []
       [GET_sources offline]
  /\ reports_failure SingleUrl_form SingleUrl.handleSubmit offline
       (SingleUrl.mkState (str "https://example.org/post") None false true) []
       [POST_process_url offline
          (ProcessUrlPayload (str "https://example.org/post") true)].
Proof.
  destruct rejected_request_reported
    as [_ [Hfetch [_ [_ [Htoggle [_ [_ [_ [_ [Hurl _]]]]]]]]]].
  split; [|split].
  - apply Htoggle; reflexivity.
  - apply Hfetch; reflexivity.
  - apply Hurl; reflexivity.
Defined.

(** What the single-URL form does besides: it clears the result shown
    before the request is sent, so a rejected request leaves no result
    on the page. *)
Lemma SingleUrl_handleSubmit_clears_result env st tr :
  backend env KUrlResult (tr ++ [PreventDefault])
    (POST_process_url env
       (ProcessUrlPayload (SingleUrl.url st) (SingleUrl.saveOption st))) = None ->
  SingleUrl.result (snd (fst (SingleUrl.handleSubmit env st tr))) = None.
Proof. intros H; rewrite SingleUrl_handleSubmit_run, H; reflexivity. Qed.

(** ** Refetch after a mutation *)

(** C7. A successful mutation is followed by the refetch of the list it
    affects, and the list rendered afterwards is the one the refetch
    brought (the previous one when the refetch is rejected; for the
    summaries, with their categories and tags, when one of the three
    requests is): after a
    source is created or updated, deleted or toggled the handler issues
    [GET /api/sources]; after a summary is deleted it issues
    [GET /api/summaries], [GET /api/categories] and [GET /api/tags];
    after an article is deleted it issues [GET /api/articles]. *)
Theorem mutation_then_refetch :
  (forall env st tr done,
      backend env KIgnored (tr ++ [PreventDefault]) (submit_request env st) = Some done ->
      exists st' ok tail,
        Sources.handleSubmit env st tr
        = (Normal tt, st',
           tr ++ [PreventDefault; Request (submit_request env st); ToastSuccess ok;
                  Request (GET_sources env)] ++ tail)
        /\ requests_of tail = []
        /\ Sources.sources st'
           = match backend env KSources
                     (tr ++ [PreventDefault; Request (submit_request env st);
                             ToastSuccess ok])
                     (GET_sources env) with
             | Some response => response
             | None => Sources.sources st
             end)
  /\ (forall env st tr id done,
         window_confirm env "Êtes-vous sûr de vouloir supprimer cette source ?" = true ->
         backend env KIgnored tr (DELETE_source env id) = Some done ->
         exists st' ok tail,
           Sources.handleDelete id env st tr
           = (Normal tt, st',
              tr ++ [Request (DELETE_source env id); ToastSuccess ok;
                     Request (GET_sources env)] ++ tail)
           /\ requests_of tail = []
           /\ Sources.sources st'
              = match backend env KSources
                        (tr ++ [Request (DELETE_source env id); ToastSuccess ok])
                        (GET_sources env) with
                | Some response => response
                | None => Sources.sources st
                end)
  /\ (forall env st tr id done,
         backend env KIgnored tr (POST_source_toggle env id) = Some done ->
         exists st' ok tail,
           Sources.handleToggle id env st tr
           = (Normal tt, st',
              tr ++ [Request (POST_source_toggle env id); ToastSuccess ok;
                     Request (GET_sources env)] ++ tail)
           /\ requests_of tail = []
           /\ Sources.sources st'
              = match backend env KSources
                        (tr ++ [Request (POST_source_toggle env id); ToastSuccess ok])
                        (GET_sources env) with
                | Some response => response
                | None => Sources.sources st
                end)
  /\ (forall env st tr summary done,
         window_confirm env "Êtes-vous sûr de vouloir supprimer ce résumé ?" = true ->
         backend env KIgnored (tr ++ [StopPropagation])
           (DELETE_summary env (Summary.id summary)) = Some done ->
         exists st' ok tail,
           Summaries.onClick_deleteSummary summary env st tr
           = (Normal tt, st',
              tr ++ [StopPropagation;
                     Request (DELETE_summary env (Summary.id summary));
                     ToastSuccess ok;
                     Request (GET_summaries env); Request (GET_categories env);
                     Request (GET_tags env)] ++ tail)
           /\ requests_of tail = []
           /\ (Summaries.summaries st', Summaries.categories st', Summaries.tags st')
              = match
                  backend env KSummaries
                    (tr ++ [StopPropagation;
                            Request (DELETE_summary env (Summary.id summary));
                            ToastSuccess ok])
                    (GET_summaries env),
                  backend env KStrings
                    (tr ++ [StopPropagation;
                            Request (DELETE_summary env (Summary.id summary));
                            ToastSuccess ok; Request (GET_summaries env)])
                    (GET_categories env),
                  backend env KStrings
                    (tr ++ [StopPropagation;
                            Request (DELETE_summary env (Summary.id summary));
                            ToastSuccess ok; Request (GET_summaries env);
                            Request (GET_categories env)])
                    (GET_tags env)
                with
                | Some summariesRes, Some categoriesRes, Some tagsRes =>
                    (summariesRes, categoriesRes, tagsRes)
                | _, _, _ =>
                    (Summaries.summaries st, Summaries.categories st,
                     Summaries.tags st)
                end)
  /\ (forall env st tr article done,
         window_confirm env "Êtes-vous sûr de vouloir supprimer cet article ?" = true ->
         backend env KIgnored (tr ++ [StopPropagation])
           (DELETE_article env (Article.id article)) = Some done ->
         exists st' ok tail,
           Articles.onClick_deleteArticle article env st tr
           = (Normal tt, st',
              tr ++ [StopPropagation;
                     Request (DELETE_article env (Article.id article));
                     ToastSuccess ok; Request (GET_articles env)] ++ tail)
           /\ requests_of tail = []
           /\ Articles.articles st'
              = match backend env KArticles
                        (tr ++ [StopPropagation;
                                Request (DELETE_article env (Article.id article));
                                ToastSuccess ok])
                        (GET_articles env) with
                | Some response => response
                | None => Articles.articles st
                end).
Proof.
  repeat match goal with |- _ /\ _ => split end.
  - intros env st tr done H; rewrite Sources_handleSubmit_run, H, fetchSources_run.
    destruct (backend env KSources _ _) eqn:E; js_norm; do 3 eexists;
      (split; [reflexivity|]); rewrite E; split; reflexivity.
  - intros env st tr id done Hc H; rewrite handleDelete_run, Hc, H, fetchSources_run.
    destruct (backend env KSources _ _) eqn:E; js_norm; do 3 eexists;
      (split; [reflexivity|]); rewrite E; split; reflexivity.
  - intros env st tr id done H; rewrite handleToggle_run, H, fetchSources_run.
    destruct (backend env KSources _ _) eqn:E; js_norm; do 3 eexists;
      (split; [reflexivity|]); rewrite E; split; reflexivity.
  - intros env st tr summary done Hc H.
    rewrite onClick_deleteSummary_run, Hc, H, Summaries_fetchData_run.
    rewrite <- !(app_assoc tr); cbn [app].
    destruct (backend env KSummaries _ _) eqn:E1;
      [destruct (backend env KStrings _ (GET_categories env)) eqn:E2;
       [destruct (backend env KStrings _ (GET_tags env)) eqn:E3|]|];
      cbv zeta; rewrite <- ?(app_assoc tr); do 3 eexists;
      (split; [reflexivity|]); (split; [reflexivity|]);
      rewrite ?E1, ?E2, ?E3; reflexivity.
  - intros env st tr article done Hc H.
    rewrite onClick_deleteArticle_run, Hc, H, Articles_fetchData_run.
    destruct (backend env KArticles _ _) eqn:E; js_norm; do 3 eexists;
      (split; [reflexivity|]); rewrite E; split; reflexivity.
Qed.

Lemma mutation_then_refetch_witness :
  (exists st' ok tail,
      Sources.handleToggle (str "42") online closedDialog []
      = (Normal tt, st',
         [Request (POST_source_toggle online (str "42")); ToastSuccess ok;
          Request (GET_sources online)] ++ tail)
      /\ requests_of tail = []
      /\ Sources.sources st' = [])
  /\ (exists st' ok tail,
         Summaries.onClick_deleteSummary (sampleSummary "s0" Null Null 0) serving
           (summariesView []) []
         = (Normal tt, st',
            [StopPropagation; Request (DELETE_summary serving (str "s0"));
             ToastSuccess ok;
             Request (GET_summaries serving); Request (GET_categories serving);
             Request (GET_tags serving)] ++ tail)
         /\ requests_of tail = []
         /\ (Summaries.summaries st', Summaries.categories st', Summaries.tags st')
            = ([sampleSummary "s1" (Val (str "LLMs")) Null 10;
                sampleSummary "s2" (Val (str "Vision")) Null 20], [], [])).
Proof.
  destruct mutation_then_refetch as [_ [_ [Htoggle [Hsummary _]]]].
  split.
  - apply (Htoggle online closedDialog [] (str "42") tt); reflexivity.
  - apply (Hsummary serving (summariesView []) [] (sampleSummary "s0" Null Null 0) tt);
      reflexivity.
Defined.

(** * Further properties of the client *)

(** ** The selection, click after click *)

Lemma includes_toggleSummarySelection (id x : jsstring) (prev : list jsstring) :
  includes (toggleSummarySelection id prev) x
  = if str_eqb x id then negb (includes prev id) else includes prev x.
Proof.
  unfold toggleSummarySelection.
  destruct (includes prev id) eqn:E.
  - destruct (str_eqb_spec x id) as [->|Hne].
    + destruct (includes (filter _ prev) id) eqn:E'; [|reflexivity].
      apply includes_In in E'; exfalso; exact (filter_neq_notin _ _ E').
    + apply eq_true_iff_eq; rewrite !includes_In, filter_In.
      split; [tauto|]; intros H; split; [exact H|].
      apply negb_true_iff, str_eqb_neq, Hne.
  - unfold includes in *; rewrite existsb_app; simpl.
    destruct (str_eqb_spec x id) as [->|Hne].
    + rewrite E, str_eqb_refl; reflexivity.
    + assert (N : str_eqb id x = false) by (apply str_eqb_neq; congruence).
      rewrite N, !orb_false_r; reflexivity.
Qed.

Lemma toggleSummarySelection_NoDup (id : jsstring) (prev : list jsstring) :
  NoDup prev -> NoDup (toggleSummarySelection id prev).
Proof.
  intros Hnd; unfold toggleSummarySelection.
  destruct (includes prev id) eqn:E.
  - apply NoDup_filter, Hnd.
  - apply NoDup_snoc; [exact Hnd|].
    intros Hin; apply includes_In in Hin; congruence.
Qed.

Lemma occurrences_cons (x id : jsstring) (ids : list jsstring) :
  occurrences x (id :: ids)
  = if str_eqb x id then S (occurrences x ids) else occurrences x ids.
Proof. unfold occurrences; simpl; destruct (str_eqb x id); reflexivity. Qed.

Lemma includes_toggles (ids : list jsstring) :
  forall (selection : list jsstring) (x : jsstring),
    includes (toggles ids selection) x
    = xorb (includes selection x) (Nat.odd (occurrences x ids)).
Proof.
  induction ids as [|id ids IH]; intros selection x.
  - simpl; rewrite xorb_false_r; reflexivity.
  - change (toggles (id :: ids) selection)
      with (toggles ids (toggleSummarySelection id selection)).
    rewrite IH, includes_toggleSummarySelection, occurrences_cons.
    destruct (str_eqb_spec x id) as [->|Hne]; [|reflexivity].
    rewrite Nat.odd_succ, <- Nat.negb_odd.
    destruct (includes selection id), (Nat.odd (occurrences id ids)); reflexivity.
Qed.

Lemma toggles_NoDup (ids : list jsstring) :
  forall selection, NoDup selection -> NoDup (toggles ids selection).
Proof.
  induction ids as [|id ids IH]; intros selection Hnd; [exact Hnd|].
  apply IH, toggleSummarySelection_NoDup, Hnd.
Qed.

(** X1. Starting from the empty selection, whatever checkboxes are
    clicked and in whatever order, the selection holds no id twice,
    and it holds an id exactly when its checkbox was clicked an odd
    number of times. *)
Theorem selection_after_clicks :
  forall (ids : list jsstring),
    NoDup (toggles ids [])
    /\ forall x, In x (toggles ids []) <-> Nat.odd (occurrences x ids) = true.
Proof.
  intros ids; split; [apply toggles_NoDup; constructor|].
  intros x; rewrite <- includes_In, includes_toggles; simpl; reflexivity.
Qed.

(** ** More on the Summaries filter *)

Lemma filterSummaries_unfold localeCompare summaries selectedCategory selectedTag view :
  filterSummaries localeCompare summaries selectedCategory selectedTag view
  = if str_eqb view (str "category")
    then array_sort (compareCategory localeCompare)
           (filter (shown selectedCategory selectedTag) summaries)
    else array_sort compareChronological
           (filter (shown selectedCategory selectedTag) summaries).
Proof.
  unfold filterSummaries, shown.
  match goal with
  | |- (if _ then array_sort _ ?l else _) = (if _ then array_sort _ ?r else _) =>
      assert (E : l = r)
  end.
  { destruct (str_eqb selectedCategory (str "all")),
             (str_eqb selectedTag (str "all")); simpl.
    - induction summaries as [|s l IH]; simpl; congruence.
    - apply filter_ext; intros s; reflexivity.
    - apply filter_ext; intros s; rewrite andb_true_r; reflexivity.
    - induction summaries as [|s l IH]; simpl; [reflexivity|].
      destruct (strict_eq (Summary.category s) (Val selectedCategory)); simpl;
        [destruct (match Summary.tags s with Val ts => includes ts selectedTag
                   | _ => false end)|]; congruence. }
  rewrite E; reflexivity.
Qed.

Lemma filter_fixed {A} (p : A -> bool) (l : list A) :
  (forall x, In x l -> p x = true) -> filter p l = l.
Proof.
  induction l as [|x l IH]; intros H; simpl; [reflexivity|].
  rewrite (H x (or_introl eq_refl)), IH; [reflexivity|].
  intros y Hy; apply H; right; exact Hy.
Qed.

(** A list already in the order of the comparator is left as it is. *)
Lemma array_sort_fixed {A} (comparefn : A -> A -> Z) (l : list A) :
  Sorted (fun a b => comparefn a b <= 0) l -> array_sort comparefn l = l.
Proof.
  induction 1 as [|x l Hs IH Hd]; [reflexivity|].
  cbn [array_sort fold_right]; fold (array_sort comparefn l); rewrite IH.
  destruct Hd as [|y l Hxy]; [reflexivity|].
  cbn [sort_insert]; destruct (Z.leb_spec (comparefn x y) 0); [reflexivity | lia].
Qed.

Lemma chronological_sorted (l : list Summary.t) :
  Sorted (fun a b => compareChronological a b <= 0)
         (array_sort compareChronological l).
Proof.
  apply StronglySorted_Sorted.
  apply (array_sort_sorted compareChronological
           (fun a b => compareChronological a b <= 0)).
  - intros x y _ _; unfold compareChronological; split; lia.
  - intros x y z _ _ _; unfold compareChronological; lia.
Qed.

(** X2. In every view but "category" the sort keeps ties in place:
    the summaries shown that share a [created_at] appear in the order
    they have in the input. *)
Theorem filterSummaries_keeps_order_of_ties :
  forall localeCompare summaries selectedCategory selectedTag view (time : Z),
    str_eqb view (str "category") = false ->
    filter (fun s => Z.eqb (Summary.created_at s) time)
      (filterSummaries localeCompare summaries selectedCategory selectedTag view)
    = filter (fun s => Z.eqb (Summary.created_at s) time)
        (filter (shown selectedCategory selectedTag) summaries).
Proof.
  intros lc summaries selC selT view time Hv.
  rewrite filterSummaries_unfold, Hv.
  apply array_sort_stable.
  intros x y _ _ Hx Hy; apply Z.eqb_eq in Hx, Hy.
  unfold compareChronological; lia.
Qed.

Lemma filterSummaries_keeps_order_of_ties_witness :
  map Summary.id
    (filter (fun s => Z.eqb (Summary.created_at s) 5)
       (filterSummaries codeUnitCompare
          [sampleSummary "a" Null Null 5; sampleSummary "b" Null Null 9;
           sampleSummary "c" Null Null 5]
          (str "all") (str "all") (str "chronological")))
  = [str "a"; str "c"].
Proof.
  rewrite (filterSummaries_keeps_order_of_ties codeUnitCompare
             [sampleSummary "a" Null Null 5; sampleSummary "b" Null Null 9;
              sampleSummary "c" Null Null 5]
             (str "all") (str "all") (str "chronological") 5 eq_refl).
  reflexivity.
Defined.

(** X3. In every view but "category" the filter is idempotent: run on
    its own output with the same selections, it returns that output. *)
Theorem filterSummaries_idempotent :
  forall localeCompare summaries selectedCategory selectedTag view,
    str_eqb view (str "category") = false ->
    filterSummaries localeCompare
      (filterSummaries localeCompare summaries selectedCategory selectedTag view)
      selectedCategory selectedTag view
    = filterSummaries localeCompare summaries selectedCategory selectedTag view.
Proof.
  intros lc summaries selC selT view Hv.
  rewrite (filterSummaries_unfold lc (filterSummaries _ _ _ _ _)), Hv.
  rewrite filter_fixed.
  - rewrite filterSummaries_unfold, Hv.
    apply array_sort_fixed, chronological_sorted.
  - intros x Hx; rewrite filterSummaries_unfold, Hv in Hx.
    apply array_sort_In, filter_In in Hx; tauto.
Qed.

Lemma filterSummaries_idempotent_witness :
  filterSummaries codeUnitCompare
    (filterSummaries codeUnitCompare
       [sampleSummary "a" Null Null 5; sampleSummary "b" Null Null 9]
       (str "all") (str "all") (str "chronological"))
    (str "all") (str "all") (str "chronological")
  = [sampleSummary "b" Null Null 9; sampleSummary "a" Null Null 5].
Proof.
  rewrite (filterSummaries_idempotent codeUnitCompare
             [sampleSummary "a" Null Null 5; sampleSummary "b" Null Null 9]
             (str "all") (str "all") (str "chronological") eq_refl).
  reflexivity.
Defined.

Lemma sort_insert_first {A} (comparefn : A -> A -> Z) (x : A) (s : list A) :
  (forall z, In z s -> comparefn x z <= 0) ->
  sort_insert comparefn x s = x :: s.
Proof.
  destruct s as [|y s]; intros H; [reflexivity|].
  cbn [sort_insert]; destruct (Z.leb_spec (comparefn x y) 0) as [_|Hgt];
    [reflexivity|].
  specialize (H y (or_introl eq_refl)); lia.
Qed.

Lemma filter_sort_insert {A} (comparefn : A -> A -> Z) (p : A -> bool)
  (x : A) (s : list A) :
  (forall a b c, comparefn a b <= 0 -> comparefn b c <= 0 -> comparefn a c <= 0) ->
  StronglySorted (fun a b => comparefn a b <= 0) s ->
  filter p (sort_insert comparefn x s)
  = if p x then sort_insert comparefn x (filter p s) else filter p s.
Proof.
  intros Htr Hs; induction Hs as [|y s Hs IH Hall].
  - simpl; destruct (p x); reflexivity.
  - cbn [sort_insert]; destruct (Z.leb_spec (comparefn x y) 0) as [Hle|Hgt].
    + cbn [filter]; destruct (p x); [|reflexivity].
      symmetry; apply (sort_insert_first comparefn x (filter p (y :: s))).
      intros z Hz; apply filter_In in Hz; destruct Hz as [[<-|Hz] _]; [exact Hle|].
      rewrite Forall_forall in Hall; apply (Htr x y z Hle), Hall, Hz.
    + cbn [filter]; rewrite IH.
      destruct (p y), (p x); try reflexivity.
      cbn [sort_insert]; destruct (Z.leb_spec (comparefn x y) 0); [lia | reflexivity].
Qed.

Lemma filter_array_sort {A} (comparefn : A -> A -> Z) (p : A -> bool) (l : list A) :
  (forall a b, 0 < comparefn a b -> comparefn b a <= 0) ->
  (forall a b c, comparefn a b <= 0 -> comparefn b c <= 0 -> comparefn a c <= 0) ->
  filter p (array_sort comparefn l) = array_sort comparefn (filter p l).
Proof.
  intros Htot Htr; induction l as [|x l IH]; [reflexivity|].
  cbn [array_sort fold_right]; fold (array_sort comparefn l).
  rewrite filter_sort_insert; [|exact Htr|].
  - cbn [filter]; destruct (p x); [|exact IH].
    cbn [array_sort fold_right]; fold (array_sort comparefn (filter p l)).
    rewrite IH; reflexivity.
  - apply (array_sort_sorted comparefn (fun a b => comparefn a b <= 0)).
    + intros a b _ _; split; [tauto | apply Htot].
    + intros a b c _ _ _; apply Htr.
Qed.

Lemma shown_all (s : Summary.t) : shown (str "all") (str "all") s = true.
Proof. reflexivity. Qed.

(** X4. In every view but "category", choosing a category or a tag
    only removes cards: the list shown is the list shown without any
    filter, in the same order, less the summaries that do not pass. *)
Theorem filterSummaries_narrows_in_place :
  forall localeCompare summaries selectedCategory selectedTag view,
    str_eqb view (str "category") = false ->
    filterSummaries localeCompare summaries selectedCategory selectedTag view
    = filter (shown selectedCategory selectedTag)
        (filterSummaries localeCompare summaries (str "all") (str "all") view).
Proof.
  intros lc summaries selC selT view Hv.
  rewrite !filterSummaries_unfold, Hv.
  rewrite (filter_fixed (shown (str "all") (str "all")))
    by (intros; apply shown_all).
  symmetry; apply filter_array_sort; unfold compareChronological; intros; lia.
Qed.

Lemma filterSummaries_narrows_in_place_witness :
  map Summary.id
    (filterSummaries codeUnitCompare
       [sampleSummary "a" (Val (str "LLMs")) Null 5;
        sampleSummary "b" (Val (str "Vision")) Null 9;
        sampleSummary "c" (Val (str "LLMs")) Null 7]
       (str "LLMs") (str "all") (str "chronological"))
  = [str "c"; str "a"].
Proof.
  rewrite (filterSummaries_narrows_in_place codeUnitCompare
             [sampleSummary "a" (Val (str "LLMs")) Null 5;
              sampleSummary "b" (Val (str "Vision")) Null 9;
              sampleSummary "c" (Val (str "LLMs")) Null 7]
             (str "LLMs") (str "all") (str "chronological") eq_refl).
  reflexivity.
Defined.

(** ** What the source form sends *)

Lemma trim_keeps_chars (c : codeunit) (s : jsstring) : In c (trim s) -> In c s.
Proof.
  destruct (trim_spec s) as [l [r [E _]]]; intros H.
  rewrite E; apply in_or_app; right; apply in_or_app; left; exact H.
Qed.

Lemma trim_is_clean (p : jsstring) : ~ In comma p -> clean_tag (trim p).
Proof.
  intros Hp; destruct (trim_spec p) as [l [r [_ [_ [_ [Hl Hr]]]]]].
  split; [|split; assumption].
  intros H; apply Hp, trim_keeps_chars, H.
Qed.

Lemma split_length (sep : codeunit) (s : jsstring) :
  List.length (split sep s) = S (List.length (filter (N.eqb sep) s)).
Proof.
  induction s as [|c s IH]; [reflexivity|].
  cbn [split filter]; rewrite (N.eqb_sym sep c).
  destruct (N.eqb c sep); cbn [List.length]; [rewrite IH; reflexivity|].
  destruct (split sep s) as [|p ps] eqn:E; [exfalso; exact (split_nonempty _ _ E)|].
  exact IH.
Qed.

Lemma payload_tags_clean (form : Sources.FormData) :
  Forall clean_tag (payload_tags (Sources.payload form)).
Proof.
  unfold Sources.payload, payload_tags.
  destruct (truthy_str (Sources.tags form)); [|constructor].
  pose proof (split_no_sep comma (Sources.tags form)) as H.
  induction H as [|p ps Hp _ IH]; simpl; constructor;
    [apply trim_is_clean, Hp | exact IH].
Qed.

(** X5. Whatever is typed in the source form, the payload is well
    formed: the category sent is never the empty string, no tag sent
    contains a comma or begins or ends with whitespace, and a tags
    field that is not empty gives one tag more than it has commas, so
    that a trailing comma or two commas in a row give an empty tag. *)
Theorem payload_well_formed :
  forall form : Sources.FormData,
    payload_category (Sources.payload form) <> Val (str "")
    /\ Forall clean_tag (payload_tags (Sources.payload form))
    /\ List.length (payload_tags (Sources.payload form))
       = match Sources.tags form with
         | [] => 0%nat
         | _ :: _ => S (List.length (filter (N.eqb comma) (Sources.tags form)))
         end.
Proof.
  intros form; split; [|split].
  - unfold Sources.payload, payload_category, or_null.
    destruct (Sources.category form); simpl; discriminate.
  - apply payload_tags_clean.
  - unfold Sources.payload, payload_tags.
    destruct (Sources.tags form) as [|c field] eqn:E; [reflexivity|].
    cbn [truthy_str]; rewrite length_map, split_length; reflexivity.
Qed.

(** X6. What one submit stores, the next edit sends back: when the
    tags of a source are those a submit of the form sent, and are not
    the single empty tag, opening the edit dialog on the source and
    submitting sends the same tags again. *)
Theorem saved_tags_survive_edit :
  forall (form : Sources.FormData) (source : Source.t) env st tr,
    Source.tags source = payload_tags (Sources.payload form) ->
    Source.tags source <> [str ""] ->
    payload_tags
      (Sources.payload
         (Sources.formData (state_after (Sources.handleEdit source) env st tr)))
    = Source.tags source.
Proof.
  intros form source env st tr Hsaved Hne.
  change (payload_tags
            (Sources.payload
               (Sources.formData (state_after (Sources.handleEdit source) env st tr))))
    with (if truthy_str (join (str ", ") (Source.tags source))
          then map trim (split comma (join (str ", ") (Source.tags source)))
          else []).
  apply tags_roundtrip; [|exact Hne].
  rewrite Hsaved; apply payload_tags_clean.
Qed.

Lemma saved_tags_survive_edit_witness :
  payload_tags
    (Sources.payload
       (Sources.formData
          (state_after (Sources.handleEdit sourceWithTags) offline closedDialog [])))
  = [str "GPT"; str "Open Source"; str ""].
Proof.
  apply (saved_tags_survive_edit
           (Sources.mkFormData (str "Lab") (str "u") (str "")
              (str " GPT ,Open Source , "))
           sourceWithTags offline closedDialog []).
  - reflexivity.
  - discriminate.
Defined.

(** ** The labels of the source links *)

Lemma span_digits_spec (s : jsstring) :
  s = fst (span_digits s) ++ snd (span_digits s)
  /\ Forall (fun c => is_digit c = true) (fst (span_digits s)).
Proof.
  induction s as [|c s [E F]]; cbn [span_digits];
    [split; [reflexivity | constructor]|].
  destruct (is_digit c) eqn:D; [|split; [reflexivity | constructor]].
  destruct (span_digits s) as [d r]; cbn [fst snd app] in *; split;
    [congruence | constructor; assumption].
Qed.

Lemma span_digits_app (d r : jsstring) :
  Forall (fun c => is_digit c = true) d ->
  match r with [] => True | c :: _ => is_digit c = false end ->
  span_digits (d ++ r) = (d, r).
Proof.
  intros Hd Hr; induction Hd as [|c d Hc _ IH]; cbn [app span_digits].
  - destruct r as [|c r]; [reflexivity|].
    cbn [span_digits]; rewrite Hr; reflexivity.
  - rewrite Hc, IH; reflexivity.
Qed.

Lemma arxiv_at_sound (s g : jsstring) :
  arxiv_at s = Some g ->
  is_arxiv_id g /\ exists post, s = 91%N :: g ++ 93%N :: post.
Proof.
  unfold arxiv_at; destruct s as [|c s1]; [discriminate|].
  destruct (N.eqb_spec c 91) as [->|]; [|discriminate].
  destruct (span_digits_spec s1) as [E1 F1].
  destruct (span_digits s1) as [[|x d1] [|dot s2]]; try discriminate.
  destruct (N.eqb_spec dot 46) as [->|]; [|discriminate].
  destruct (span_digits_spec s2) as [E2 F2].
  destruct (span_digits s2) as [[|y d2] [|close post]]; try discriminate.
  destruct (N.eqb_spec close 93) as [->|]; [|discriminate].
  intros H; inversion H; subst g; simpl in *; split.
  - exists (x :: d1), (y :: d2); repeat split; try discriminate; assumption.
  - exists post; rewrite E1, E2, <- app_assoc; reflexivity.
Qed.

Lemma arxiv_at_complete (d1 d2 post : list N) :
  d1 <> [] -> d2 <> [] ->
  Forall (fun c => is_digit c = true) d1 ->
  Forall (fun c => is_digit c = true) d2 ->
  arxiv_at (91%N :: (d1 ++ 46%N :: d2) ++ 93%N :: post) = Some (d1 ++ 46%N :: d2).
Proof.
  intros N1 N2 F1 F2; unfold arxiv_at; rewrite N.eqb_refl.
  rewrite <- app_assoc; cbn [app].
  rewrite (span_digits_app d1 _ F1) by reflexivity.
  destruct d1 as [|x d1]; [congruence|].
  rewrite N.eqb_refl, (span_digits_app d2 _ F2) by reflexivity.
  destruct d2 as [|y d2]; [congruence|].
  rewrite N.eqb_refl; reflexivity.
Qed.

Lemma arxiv_at_needs_bracket (c : codeunit) (s : jsstring) :
  c <> 91%N -> arxiv_at (c :: s) = None.
Proof.
  intros H; unfold arxiv_at; destruct (N.eqb_spec c 91); [contradiction | reflexivity].
Qed.

Lemma arxivMatch_sound (title g : jsstring) :
  arxivMatch title = Some g ->
  is_arxiv_id g /\ occurs_in (91%N :: g ++ [93%N]) title.
Proof.
  revert g; induction title as [|c title IH]; intros g H.
  - simpl in H; discriminate.
  - cbn [arxivMatch] in H; destruct (arxiv_at (c :: title)) as [g'|] eqn:E.
    + inversion H; subst g'.
      destruct (arxiv_at_sound _ _ E) as [Hid [post Epost]].
      split; [exact Hid|]; exists [], post.
      rewrite Epost; cbn [app]; rewrite <- app_assoc; reflexivity.
    + destruct (IH g H) as [Hid [pre [post Epost]]].
      split; [exact Hid|]; exists (c :: pre), post; rewrite Epost; reflexivity.
Qed.

Lemma arxivMatch_here (g post : list N) :
  is_arxiv_id g -> arxivMatch ((91%N :: g ++ [93%N]) ++ post) = Some g.
Proof.
  intros [d1 [d2 [-> [N1 [N2 [F1 F2]]]]]].
  cbn [app]; rewrite <- (app_assoc (d1 ++ 46%N :: d2)); cbn [app arxivMatch].
  rewrite (arxiv_at_complete d1 d2 post N1 N2 F1 F2); reflexivity.
Qed.

(** X7. The arXiv identifier is read off the title as the expression
    [/\[(\d+\.\d+)\]/] reads it: a value is found exactly when the
    title holds an opening bracket, digits, a dot, digits and a
    closing bracket in a row; the value found is such an identifier,
    and it is the first one when no bracket opens before it. *)
Theorem arxivMatch_reads_bracketed_id :
  forall title : jsstring,
    (forall g, arxivMatch title = Some g ->
               is_arxiv_id g /\ occurs_in (91%N :: g ++ [93%N]) title)
    /\ (arxivMatch title <> None
        <-> exists g, is_arxiv_id g /\ occurs_in (91%N :: g ++ [93%N]) title)
    /\ (forall pre g post,
           title = pre ++ (91%N :: g ++ [93%N]) ++ post ->
           is_arxiv_id g -> ~ In 91%N pre ->
           arxivMatch title = Some g).
Proof.
  intros title; split; [intros g; apply arxivMatch_sound|]; split.
  - split.
    + destruct (arxivMatch title) as [g|] eqn:E; [|congruence].
      intros _; exists g; apply arxivMatch_sound, E.
    + intros [g [Hid [pre [post ->]]]].
      induction pre as [|c pre IH].
      * intros Hnone.
        pose proof (arxivMatch_here g post Hid) as Hhere.
        assert (Habs : Some g = None) by exact (eq_trans (eq_sym Hhere) Hnone).
        discriminate Habs.
      * change ((c :: pre) ++ (91%N :: g ++ [93%N]) ++ post)
          with (c :: (pre ++ (91%N :: g ++ [93%N]) ++ post)).
        cbn [arxivMatch]; destruct (arxiv_at _); [discriminate | exact IH].
  - intros pre g post -> Hid Hpre.
    induction pre as [|c pre IH]; [exact (arxivMatch_here g post Hid)|].
    change ((c :: pre) ++ (91%N :: g ++ [93%N]) ++ post)
      with (c :: (pre ++ (91%N :: g ++ [93%N]) ++ post)).
    cbn [arxivMatch]; rewrite arxiv_at_needs_bracket
      by (intros ->; apply Hpre; left; reflexivity).
    apply IH; intros H; apply Hpre; right; exact H.
Qed.

Lemma starts_with_spec (p s : list N) :
  starts_with p s = true <-> exists post, s = p ++ post.
Proof.
  revert s; induction p as [|x p IH]; intros s; simpl.
  - split; [intros _; exists s; reflexivity | reflexivity].
  - destruct s as [|y s]; [split; [discriminate | intros [post E]; discriminate]|].
    rewrite andb_true_iff, N.eqb_eq, IH; split.
    + intros [-> [post ->]]; exists post; reflexivity.
    + intros [post E]; inversion E; subst; split; [reflexivity | exists post; reflexivity].
Qed.

Lemma skipn_prefix (p post : list N) : skipn (List.length p) (p ++ post) = post.
Proof. induction p as [|x p IH]; simpl; [reflexivity | exact IH]. Qed.

Lemma replace_first_absent (p r s : list N) :
  str_includes p s = false -> replace_first p r s = s.
Proof.
  induction s as [|c s IH]; cbn [str_includes replace_first]; intros H;
    apply orb_false_iff in H; destruct H as [H0 H1]; rewrite H0;
    [reflexivity | rewrite (IH H1); reflexivity].
Qed.

Lemma replace_first_present (p r s : list N) :
  str_includes p s = true ->
  exists pre post,
    s = pre ++ p ++ post
    /\ replace_first p r s = pre ++ r ++ post
    /\ forall k, (k < List.length pre)%nat -> starts_with p (skipn k s) = false.
Proof.
  induction s as [|c s IH]; cbn [str_includes replace_first]; intros H.
  - rewrite orb_false_r in H; rewrite H.
    apply starts_with_spec in H; destruct H as [post E].
    exists [], post; split; [exact E|]; split; [|simpl; intros k Hk; lia].
    rewrite E at 1; rewrite skipn_prefix; reflexivity.
  - destruct (starts_with p (c :: s)) eqn:E0.
    + apply starts_with_spec in E0; destruct E0 as [post E].
      exists [], post; split; [exact E|]; split; [|simpl; intros k Hk; lia].
      rewrite E, skipn_prefix; reflexivity.
    + simpl in H; destruct (IH H) as [pre [post [E [Er Hleft]]]].
      exists (c :: pre), post; split; [rewrite E at 1; reflexivity|].
      split; [rewrite Er; reflexivity|].
      intros [|k] Hk; [exact E0|].
      simpl in Hk |- *; apply Hleft; lia.
Qed.

(** X8. The domain shown for a link is the host name less its first
    ["www."]: a leading ["www."] is dropped, a host name without
    ["www."] is shown as it is, and when ["www."] occurs further in,
    only its first occurrence is cut out. *)
Theorem domainOf_drops_first_www :
  forall hostname : jsstring,
    (forall rest, hostname = str "www." ++ rest -> domainOf hostname = rest)
    /\ (str_includes (str "www.") hostname = false -> domainOf hostname = hostname)
    /\ (str_includes (str "www.") hostname = true ->
        exists pre post,
          hostname = pre ++ str "www." ++ post
          /\ domainOf hostname = pre ++ post
          /\ forall k, (k < List.length pre)%nat ->
                       starts_with (str "www.") (skipn k hostname) = false).
Proof.
  intros hostname; split; [|split].
  - intros rest ->; reflexivity.
  - apply replace_first_absent.
  - intros H; destruct (replace_first_present _ (str "") _ H) as [pre [post [E [Er Hk]]]].
    exists pre, post; split; [exact E|]; split; [exact Er | exact Hk].
Qed.

Lemma shortTitle_spec (title : jsstring) :
  (List.length (shortTitle title) <= 43)%nat
  /\ ((List.length title <= 40)%nat -> shortTitle title = title)
  /\ ((40 < List.length title)%nat ->
      shortTitle title = firstn 40 title ++ str "..."
      /\ List.length (shortTitle title) = 43%nat).
Proof.
  unfold shortTitle; destruct (Nat.ltb_spec 40 (List.length title)) as [Hlt|Hle].
  - rewrite length_app, firstn_length_le by lia.
    split; [simpl; lia|]; split; [lia|]; intros _; split; [reflexivity | simpl; lia].
  - rewrite app_nil_r, firstn_all2 by exact Hle.
    split; [lia|]; split; [reflexivity | lia].
Qed.

(** X9. The text of a source link: when the URL does not parse it is
    the whole title; on a LinkedIn domain it is "LinkedIn - " and the
    source name, whatever the title holds; otherwise it is "arXiv "
    and an identifier found between brackets in the title, on an arXiv
    domain, or the domain, " - " and the title, cut to its first 40
    code units and "..." when it is longer. *)
Theorem sourceRef_displayText_cases :
  forall (hostname : jsstring -> option jsstring) (sourceRef : SourceRef.t),
    (hostname (SourceRef.url sourceRef) = None ->
     sourceRef_displayText hostname sourceRef = SourceRef.title sourceRef)
    /\ (forall h,
           hostname (SourceRef.url sourceRef) = Some h ->
           str_includes (str "linkedin.com") (domainOf h) = true ->
           sourceRef_displayText hostname sourceRef
           = str "LinkedIn - " ++ SourceRef.source_name sourceRef)
    /\ (forall h,
           hostname (SourceRef.url sourceRef) = Some h ->
           str_includes (str "linkedin.com") (domainOf h) = false ->
           (exists g,
               str_includes (str "arxiv.org") (domainOf h) = true
               /\ is_arxiv_id g
               /\ occurs_in (91%N :: g ++ [93%N]) (SourceRef.title sourceRef)
               /\ sourceRef_displayText hostname sourceRef = str "arXiv " ++ g)
           \/ (exists t,
                  sourceRef_displayText hostname sourceRef
                  = domainOf h ++ str " - " ++ t
                  /\ (List.length t <= 43)%nat
                  /\ ((List.length (SourceRef.title sourceRef) <= 40)%nat ->
                      t = SourceRef.title sourceRef)
                  /\ ((40 < List.length (SourceRef.title sourceRef))%nat ->
                      t = firstn 40 (SourceRef.title sourceRef) ++ str "..."))).
Proof.
  intros hostname sourceRef; unfold sourceRef_displayText.
  split; [intros ->; reflexivity|]; split.
  - intros h -> Hl; cbv zeta; rewrite Hl; reflexivity.
  - intros h -> Hl; cbv zeta; rewrite Hl.
    assert (Hshort : exists t,
              domainOf h ++ str " - " ++ shortTitle (SourceRef.title sourceRef)
              = domainOf h ++ str " - " ++ t
              /\ (List.length t <= 43)%nat
              /\ ((List.length (SourceRef.title sourceRef) <= 40)%nat ->
                  t = SourceRef.title sourceRef)
              /\ ((40 < List.length (SourceRef.title sourceRef))%nat ->
                  t = firstn 40 (SourceRef.title sourceRef) ++ str "...")).
    { destruct (shortTitle_spec (SourceRef.title sourceRef)) as [H1 [H2 H3]].
      exists (shortTitle (SourceRef.title sourceRef)); repeat split;
        [exact H1 | exact H2 | intros H; apply H3, H]. }
    destruct (str_includes (str "arxiv.org") (domainOf h)) eqn:Ha; [|right; exact Hshort].
    destruct (arxivMatch (SourceRef.title sourceRef)) as [g|] eqn:Em; [|right; exact Hshort].
    left; exists g; destruct (arxivMatch_sound _ _ Em) as [Hid Hocc].
    repeat split; assumption.
Qed.

Lemma sourceRef_displayText_cases_witness :
  sourceRef_displayText sampleHostname
    (SourceRef.mk (str "not a url") (str "A title") (str "Blog"))
  = str "A title"
  /\ sourceRef_displayText sampleHostname
       (SourceRef.mk (str "https://www.linkedin.com") (str "[2401.12345] T") (str "Ann"))
     = str "LinkedIn - Ann".
Proof.
  split.
  - apply (sourceRef_displayText_cases sampleHostname
             (SourceRef.mk (str "not a url") (str "A title") (str "Blog"))).
    reflexivity.
  - apply (proj1 (proj2 (sourceRef_displayText_cases sampleHostname
             (SourceRef.mk (str "https://www.linkedin.com") (str "[2401.12345] T")
                (str "Ann"))))
             (str "www.linkedin.com")); reflexivity.
Defined.

(** ** The handlers, whatever the backend answers *)

(** Case analysis on everything the environment decides. *)
Ltac js_cases :=
  repeat match goal with
    | |- context [backend ?e ?k ?t ?r] => destruct (backend e k t r)
    | |- context [window_confirm ?e ?m] => destruct (window_confirm e m)
    | |- context [Summary.is_new ?r] => destruct (Summary.is_new r)
    | |- context [(List.length ?l <? 2)%nat] => destruct (List.length l <? 2)%nat
    | |- context [Sources.editingSource ?s] => destruct (Sources.editingSource s)
    end.

Ltac js_all_runs :=
  rewrite ?Dashboard_fetchData_run, ?Sources_handleSubmit_run, ?handleDelete_run,
    ?handleToggle_run, ?handleCompileArticle_run, ?onClick_deleteSummary_run,
    ?fetchSummary_run, ?SingleUrl_handleSubmit_run, ?onClick_deleteArticle_run,
    ?fetchArticle_run;
  js_cases;
  rewrite ?fetchSources_run, ?Summaries_fetchData_run, ?Articles_fetchData_run;
  js_cases; cbv zeta.

(** X10. No handler lets a rejection escape: whatever the backend
    answers to each request and whatever the user answers to the
    confirmations, every handler that talks to the backend completes
    normally. *)
Theorem handlers_never_throw :
  completes_normally Dashboard.fetchData
  /\ completes_normally Sources.fetchSources
  /\ completes_normally Sources.handleSubmit
  /\ (forall id, completes_normally (Sources.handleDelete id))
  /\ (forall id, completes_normally (Sources.handleToggle id))
  /\ completes_normally Summaries.fetchData
  /\ completes_normally Summaries.handleCompileArticle
  /\ (forall summary, completes_normally (Summaries.onClick_deleteSummary summary))
  /\ completes_normally SummaryDetail.fetchSummary
  /\ completes_normally SingleUrl.handleSubmit
  /\ completes_normally Articles.fetchData
  /\ (forall article, completes_normally (Articles.onClick_deleteArticle article))
  /\ completes_normally ArticleDetail.fetchArticle.
Proof.
  unfold completes_normally.
  repeat match goal with |- _ /\ _ => split end; intros; js_all_runs; reflexivity.
Qed.

(** X11. The busy flags never stay raised: after each fetch and after
    the processing of a URL, [loading] is false whatever the backend
    answered; after [handleCompileArticle], [compilingArticle] is false
    when a request was sent and as it was when fewer than two
    summaries were selected. *)
Theorem busy_flags_are_reset :
  forall env tr,
    (forall st, Dashboard.loading (state_after Dashboard.fetchData env st tr) = false)
    /\ (forall st, Sources.loading (state_after Sources.fetchSources env st tr) = false)
    /\ (forall st, Summaries.loading (state_after Summaries.fetchData env st tr) = false)
    /\ (forall st,
           SummaryDetail.loading (state_after SummaryDetail.fetchSummary env st tr)
           = false)
    /\ (forall st, SingleUrl.loading (state_after SingleUrl.handleSubmit env st tr) = false)
    /\ (forall st, Articles.loading (state_after Articles.fetchData env st tr) = false)
    /\ (forall st,
           ArticleDetail.loading (state_after ArticleDetail.fetchArticle env st tr)
           = false)
    /\ (forall st,
           Summaries.compilingArticle
             (state_after Summaries.handleCompileArticle env st tr)
           = if (List.length (Summaries.selectedForArticle st) <? 2)%nat
             then Summaries.compilingArticle st
             else false).
Proof.
  intros env tr; unfold state_after.
  repeat match goal with |- _ /\ _ => split end; intros st;
    rewrite ?Dashboard_fetchData_run, ?fetchSources_run, ?Summaries_fetchData_run,
      ?fetchSummary_run, ?SingleUrl_handleSubmit_run, ?Articles_fetchData_run,
      ?fetchArticle_run, ?handleCompileArticle_run;
    js_cases; reflexivity.
Qed.

(** X12. A deletion that the user does not confirm does nothing: no
    request is sent, no toast is shown and the state is as it was, for
    a source, a summary and an article alike. *)
Theorem unconfirmed_delete_does_nothing :
  (forall env st tr id,
      window_confirm env "Êtes-vous sûr de vouloir supprimer cette source ?" = false ->
      Sources.handleDelete id env st tr = (Normal tt, st, tr))
  /\ (forall env st tr summary,
         window_confirm env "Êtes-vous sûr de vouloir supprimer ce résumé ?" = false ->
         Summaries.onClick_deleteSummary summary env st tr
         = (Normal tt, st, tr ++ [StopPropagation]))
  /\ (forall env st tr article,
         window_confirm env "Êtes-vous sûr de vouloir supprimer cet article ?" = false ->
         Articles.onClick_deleteArticle article env st tr
         = (Normal tt, st, tr ++ [StopPropagation])).
Proof.
  split; [|split].
  - intros env st tr id H; rewrite handleDelete_run, H; reflexivity.
  - intros env st tr summary H; rewrite onClick_deleteSummary_run, H; reflexivity.
  - intros env st tr article H; rewrite onClick_deleteArticle_run, H; reflexivity.
Qed.

Lemma unconfirmed_delete_does_nothing_witness :
  Sources.handleDelete (str "42") declining closedDialog [] = (Normal tt, closedDialog, [])
  /\ requests_of
       (snd (Summaries.onClick_deleteSummary (sampleSummary "s1" Null Null 0)
               declining (summariesView [str "s1"]) [])) = [].
Proof.
  destruct unconfirmed_delete_does_nothing as [Hsource [Hsummary _]].
  split.
  - apply Hsource; reflexivity.
  - rewrite Hsummary; reflexivity.
Defined.

Ltac js_emits :=
  unfold emits; intros; js_all_runs; cbn [snd]; rewrite <- ?app_assoc; cbn [app];
  first [ exists []; split; [symmetry; apply app_nil_r|]
        | eexists; split; [reflexivity|] ].

(** X13. One action, at most one change: whatever the backend
    answers, each handler sends at most one request that is not a
    [GET]; the refetches that follow a change are [GET]s. *)
Theorem at_most_one_mutation :
  emits Dashboard.fetchData (fun _ evs => mutations_of evs = [])
  /\ emits Sources.fetchSources (fun _ evs => mutations_of evs = [])
  /\ emits Sources.handleSubmit
       (fun _ evs => (List.length (mutations_of evs) <= 1)%nat)
  /\ (forall id, emits (Sources.handleDelete id)
                   (fun _ evs => (List.length (mutations_of evs) <= 1)%nat))
  /\ (forall id, emits (Sources.handleToggle id)
                   (fun _ evs => (List.length (mutations_of evs) <= 1)%nat))
  /\ emits Summaries.fetchData (fun _ evs => mutations_of evs = [])
  /\ emits Summaries.handleCompileArticle
       (fun _ evs => (List.length (mutations_of evs) <= 1)%nat)
  /\ (forall summary, emits (Summaries.onClick_deleteSummary summary)
                        (fun _ evs => (List.length (mutations_of evs) <= 1)%nat))
  /\ emits SummaryDetail.fetchSummary
       (fun _ evs => (List.length (mutations_of evs) <= 1)%nat)
  /\ emits SingleUrl.handleSubmit
       (fun _ evs => (List.length (mutations_of evs) <= 1)%nat)
  /\ emits Articles.fetchData (fun _ evs => mutations_of evs = [])
  /\ (forall article, emits (Articles.onClick_deleteArticle article)
                        (fun _ evs => (List.length (mutations_of evs) <= 1)%nat))
  /\ emits ArticleDetail.fetchArticle (fun _ evs => mutations_of evs = []).
Proof.
  repeat match goal with |- _ /\ _ => split end; js_emits;
    unfold submit_request; js_cases; simpl;
    solve [reflexivity | lia].
Qed.

(** X14. Every request goes to the API: the URL of each request a
    handler sends is [BACKEND_URL], ["/api"] and a path. *)
Theorem requests_go_to_the_api :
  let to_api := fun env evs =>
    Forall (fun r => exists path, req_url r = api env path) (requests_of evs) in
  emits Dashboard.fetchData to_api
  /\ emits Sources.fetchSources to_api
  /\ emits Sources.handleSubmit to_api
  /\ (forall id, emits (Sources.handleDelete id) to_api)
  /\ (forall id, emits (Sources.handleToggle id) to_api)
  /\ emits Summaries.fetchData to_api
  /\ emits Summaries.handleCompileArticle to_api
  /\ (forall summary, emits (Summaries.onClick_deleteSummary summary) to_api)
  /\ emits SummaryDetail.fetchSummary to_api
  /\ emits SingleUrl.handleSubmit to_api
  /\ emits Articles.fetchData to_api
  /\ (forall article, emits (Articles.onClick_deleteArticle article) to_api)
  /\ emits ArticleDetail.fetchArticle to_api.
Proof.
  cbv zeta.
  repeat match goal with |- _ /\ _ => split end; js_emits;
    unfold submit_request; js_cases; simpl;
    repeat constructor; eexists; reflexivity.
Qed.

(** ** The paths of success *)

(** X15. Once the backend has accepted the source, the dialog is
    closed, the form is emptied and no source is being edited any
    more, whether the refetch that follows succeeds or not. *)
Theorem handleSubmit_success_resets_form :
  forall env st tr done,
    backend env KIgnored (tr ++ [PreventDefault]) (submit_request env st) = Some done ->
    Sources.dialogOpen (state_after Sources.handleSubmit env st tr) = false
    /\ Sources.formData (state_after Sources.handleSubmit env st tr)
       = Sources.mkFormData (str "") (str "") (str "") (str "")
    /\ Sources.editingSource (state_after Sources.handleSubmit env st tr) = None.
Proof.
  intros env st tr done H; unfold state_after.
  rewrite Sources_handleSubmit_run, H, fetchSources_run.
  destruct (backend env KSources _ _); repeat split; reflexivity.
Qed.

Lemma handleSubmit_success_resets_form_witness :
  Sources.dialogOpen
    (state_after Sources.handleSubmit online
       (Sources.mkState [] false true (Some sourceWithTags)
          (Sources.mkFormData (str "Lab") (str "u") (str "c") (str "GPT")))
       [])
  = false.
Proof.
  apply (handleSubmit_success_resets_form online
           (Sources.mkState [] false true (Some sourceWithTags)
              (Sources.mkFormData (str "Lab") (str "u") (str "c") (str "GPT")))
           [] tt).
  reflexivity.
Defined.

(** X16. A compilation that succeeds clears the selection, empties the
    article form, closes the dialog, lowers [compilingArticle], leaves
    the summaries as they were, and sends the user to the page of the
    article the backend returned; it shows one toast, a success. *)
Theorem handleCompileArticle_success :
  forall env st tr response,
    (2 <= List.length (Summaries.selectedForArticle st))%nat ->
    backend env KArticle (tr ++ [PreventDefault]) (compile_request env st)
    = Some response ->
    exists st',
      Summaries.handleCompileArticle env st tr
      = (Normal tt, st',
         tr ++ [PreventDefault; Request (compile_request env st);
                ToastSuccess "Article compilé avec succès !";
                Navigate (str "/articles/" ++ Article.id response)])
      /\ Summaries.selectedForArticle st' = []
      /\ Summaries.articleFormData st' = Summaries.mkArticleFormData (str "") (str "")
      /\ Summaries.showCompileDialog st' = false
      /\ Summaries.compilingArticle st' = false
      /\ Summaries.summaries st' = Summaries.summaries st
      /\ Summaries.filteredSummaries st' = Summaries.filteredSummaries st.
Proof.
  intros env st tr response Hlen H.
  rewrite handleCompileArticle_run, H.
  apply Nat.ltb_ge in Hlen; rewrite Hlen.
  eexists; split; [reflexivity|]; repeat split; reflexivity.
Qed.

Lemma handleCompileArticle_success_witness :
  exists st',
    Summaries.handleCompileArticle online (summariesView [str "s1"; str "s2"]) []
    = (Normal tt, st',
       [PreventDefault;
        Request (compile_request online (summariesView [str "s1"; str "s2"]));
        ToastSuccess "Article compilé avec succès !";
        Navigate (str "/articles/a1")])
    /\ Summaries.selectedForArticle st' = [].
Proof.
  destruct (handleCompileArticle_success online (summariesView [str "s1"; str "s2"])
              [] sampleArticle) as [st' [Hrun [Hsel _]]].
  - simpl; lia.
  - reflexivity.
  - exists st'; split; [exact Hrun | exact Hsel].
Defined.

(** X17. After the single-URL form is submitted, the result shown is
    what the backend answered to this request and nothing else: the
    new summary when the request was fulfilled, no result when it was
    rejected; the URL and the save option are left as typed. *)
Theorem SingleUrl_result_is_the_answer :
  forall env st tr,
    SingleUrl.result (state_after SingleUrl.handleSubmit env st tr)
    = backend env KUrlResult (tr ++ [PreventDefault])
        (POST_process_url env
           (ProcessUrlPayload (SingleUrl.url st) (SingleUrl.saveOption st)))
    /\ SingleUrl.url (state_after SingleUrl.handleSubmit env st tr) = SingleUrl.url st
    /\ SingleUrl.saveOption (state_after SingleUrl.handleSubmit env st tr)
       = SingleUrl.saveOption st.
Proof.
  intros env st tr; unfold state_after; rewrite SingleUrl_handleSubmit_run.
  destruct (backend env KUrlResult _ _); repeat split; reflexivity.
Qed.

(** X18. The summary fetched is shown whatever becomes of the marking
    as read: the detail view holds the fetched summary as soon as the
    [GET] is fulfilled, and keeps what it held when the [GET] is
    rejected; when the fetched summary is new and the marking as read
    is rejected, the summary is shown and the error toast of the
    loading is shown with it. *)
Theorem fetchSummary_shows_what_it_fetched :
  forall env st tr,
    SummaryDetail.summary (state_after SummaryDetail.fetchSummary env st tr)
    = match backend env KSummary tr (GET_summary env (SummaryDetail.id st)) with
      | Some response => Some response
      | None => SummaryDetail.summary st
      end
    /\ forall response,
        backend env KSummary tr (GET_summary env (SummaryDetail.id st))
        = Some response ->
        Summary.is_new response = true ->
        backend env KIgnored (tr ++ [Request (GET_summary env (SummaryDetail.id st))])
          (POST_mark_read env (SummaryDetail.id st)) = None ->
        exists evs,
          snd (SummaryDetail.fetchSummary env st tr) = tr ++ evs
          /\ toasts_of evs = [ToastError "Erreur lors du chargement"].
Proof.
  intros env st tr; unfold state_after; rewrite fetchSummary_run; split.
  - js_cases; reflexivity.
  - intros response Hget Hnew Hmark; rewrite Hget, Hnew, Hmark.
    eexists; split; reflexivity.
Qed.

(** X19. Deleting a summary, and refetching the list, never touch the
    selection made for an article, the filters, the view or the article
    form: an id that was selected stays selected, the id of the
    summary just deleted included. *)
Theorem deleting_keeps_the_selection :
  forall env st tr,
    let untouched := fun st' : Summaries.State =>
      Summaries.selectedForArticle st' = Summaries.selectedForArticle st
      /\ Summaries.selectedCategory st' = Summaries.selectedCategory st
      /\ Summaries.selectedTag st' = Summaries.selectedTag st
      /\ Summaries.view st' = Summaries.view st
      /\ Summaries.articleFormData st' = Summaries.articleFormData st
      /\ Summaries.showCompileDialog st' = Summaries.showCompileDialog st in
    untouched (state_after Summaries.fetchData env st tr)
    /\ forall summary,
        untouched (state_after (Summaries.onClick_deleteSummary summary) env st tr).
Proof.
  intros env st tr; cbv zeta; unfold state_after; split; [|intros summary];
    rewrite ?onClick_deleteSummary_run; js_cases;
    rewrite ?Summaries_fetchData_run; js_cases; cbv zeta;
    repeat split; reflexivity.
Qed.

(** X20. The dashboard never holds more than six recent summaries:
    when it held at most six, it holds at most six after a fetch, the
    first six of the response when both requests were fulfilled. *)
Theorem dashboard_holds_at_most_six :
  forall env st tr,
    (List.length (Dashboard.recentSummaries st) <= 6)%nat ->
    (List.length (Dashboard.recentSummaries (state_after Dashboard.fetchData env st tr))
     <= 6)%nat
    /\ forall statsRes summariesRes,
        backend env KStats tr (GET_stats env) = Some statsRes ->
        backend env KSummaries (tr ++ [Request (GET_stats env)])
          (GET_recent_summaries env) = Some summariesRes ->
        Dashboard.recentSummaries (state_after Dashboard.fetchData env st tr)
        = firstn 6 summariesRes.
Proof.
  intros env st tr Hlen; unfold state_after; rewrite Dashboard_fetchData_run; split.
  - js_cases; cbn [fst snd Dashboard.recentSummaries Dashboard.setLoading
                   Dashboard.setRecentSummaries Dashboard.setStats];
      try exact Hlen; apply firstn_le_length.
  - intros statsRes summariesRes -> ->; reflexivity.
Qed.

Lemma dashboard_holds_at_most_six_witness :
  (List.length
     (Dashboard.recentSummaries
        (state_after Dashboard.fetchData serving (Dashboard.mkState None [] true) []))
   <= 6)%nat.
Proof.
  apply (dashboard_holds_at_most_six serving (Dashboard.mkState None [] true) []).
  simpl; lia.
Defined.

(** X21. Fetch, then filter: when the three requests of the Summaries
    view are fulfilled and the filter effect has run, the cards shown
    are exactly the summaries of the response that pass the category
    and tag selected, each once. *)
Theorem fetch_then_filter_shows_the_response :
  forall localeCompare env st tr tr' summariesRes categoriesRes tagsRes,
    backend env KSummaries tr (GET_summaries env) = Some summariesRes ->
    backend env KStrings (tr ++ [Request (GET_summaries env)]) (GET_categories env)
    = Some categoriesRes ->
    backend env KStrings
      (tr ++ [Request (GET_summaries env); Request (GET_categories env)])
      (GET_tags env) = Some tagsRes ->
    Permutation
      (Summaries.filteredSummaries
         (state_after (Summaries.useEffect_filterSummaries localeCompare) env
            (state_after Summaries.fetchData env st tr) tr'))
      (filter (shown (Summaries.selectedCategory st) (Summaries.selectedTag st))
         summariesRes).
Proof.
  intros lc env st tr tr' l cats tags H1 H2 H3; unfold state_after.
  rewrite Summaries_fetchData_run, H1, H2, H3.
  apply filterSummaries_perm.
Qed.

Lemma fetch_then_filter_shows_the_response_witness :
  Permutation
    (Summaries.filteredSummaries
       (state_after (Summaries.useEffect_filterSummaries codeUnitCompare) serving
          (state_after Summaries.fetchData serving (summariesView []) []) []))
    [sampleSummary "s1" (Val (str "LLMs")) Null 10;
     sampleSummary "s2" (Val (str "Vision")) Null 20].
Proof.
  apply (fetch_then_filter_shows_the_response codeUnitCompare serving
           (summariesView []) [] []
           [sampleSummary "s1" (Val (str "LLMs")) Null 10;
            sampleSummary "s2" (Val (str "Vision")) Null 20] [] []);
    reflexivity.
Defined.
